(** * fuel_fraction: critical-radius search for a homogenized reactor core

    A shallow embedding of [material_data.py], [mcnp_inputs.py] and
    [cooled_cyl.py], and the properties of the specification proved (or
    refuted) over it.

    Conventions of the embedding.
    - A Python [float] is an exact rational ([Q]): the arithmetic of the
      source is embedded operation by operation, without binary64 rounding.
      Equalities between computed numbers are stated with [==].
    - A Python [dict] of isotopes is an association list in insertion
      order with pairwise distinct keys ([dict_set] keeps the position of a
      key that is already present, as Python does).
    - A Python exception is a value [Raise e] of the type [result]; code
      that mutates an object or the file system returns the new state next
      to its result, also when it raises.
    - The file system is a finite map from file names to file contents. *)

From Stdlib Require Import QArith Qround Qabs Lqa ZArith Lia.
From Stdlib Require Import String Ascii List DecimalString Sorting.Sorted.
From stdpp Require Import gmap strings list fin_maps sorting.

Open Scope Q_scope.

(** ** Python values and builtins *)

Module Py.

Inductive exn : Set :=
| KeyError
| IndexError
| ValueError
| ZeroDivisionError
| UnboundLocalError
| AttributeError
| FileNotFoundError.

Inductive result (A : Type) : Type :=
| Ok (a : A)
| Raise (e : exn).

Arguments Ok {A} a.
Arguments Raise {A} e.

Definition bind {A B : Type} (m : result A) (k : A -> result B) : result B :=
  match m with
  | Ok a => k a
  | Raise e => Raise e
  end.

Definition is_ok {A : Type} (m : result A) : bool :=
  match m with Ok _ => true | Raise _ => false end.

(** [d[k]] on a table that may lack the key. *)
Definition getitem {A : Type} (o : option A) : result A :=
  match o with
  | Some a => Ok a
  | None => Raise KeyError
  end.

(** [a / b] on floats. *)
Definition truediv (a b : Q) : result Q :=
  if Qeq_bool b 0 then Raise ZeroDivisionError else Ok (a / b).

(** Rounding of a rational to the nearest integer, ties to even. *)
Definition round_half_even (q : Q) : Z :=
  let f := Qfloor q in
  match ((q - inject_Z f) ?= (1 # 2))%Q with
  | Lt => f
  | Gt => (f + 1)%Z
  | Eq => if Z.even f then f else (f + 1)%Z
  end.

(** [round(q, ndigits)] for [ndigits >= 0]. *)
Definition round (q : Q) (ndigits : nat) : Q :=
  let p := (10 ^ Z.of_nat ndigits)%Z in
  inject_Z (round_half_even (q * inject_Z p)) / inject_Z p.

(** Dictionaries with integer keys, in insertion order. *)
Definition dict : Type := list (Z * Q).

Fixpoint dict_get (k : Z) (d : dict) : option Q :=
  match d with
  | nil => None
  | (k', v) :: d' => if Z.eqb k k' then Some v else dict_get k d'
  end.

Definition dict_mem (k : Z) (d : dict) : bool :=
  match dict_get k d with Some _ => true | None => false end.

(** [d[k] = v]: an existing key keeps its position. *)
Fixpoint dict_set (k : Z) (v : Q) (d : dict) : dict :=
  match d with
  | nil => (k, v) :: nil
  | (k', v') :: d' =>
      if Z.eqb k k' then (k, v) :: d' else (k', v') :: dict_set k v d'
  end.

Definition dict_keys (d : dict) : list Z := List.map fst d.
Definition dict_values (d : dict) : list Q := List.map snd d.

(** [sum(d.values())] *)
Definition dict_sum (d : dict) : Q :=
  List.fold_right Qplus 0 (dict_values d).

(** A dict comprehension [{k : f(v) for k, v in d.items()}] whose body
    may raise. *)
Fixpoint dict_comprehension (f : Q -> result Q) (d : dict) : result dict :=
  match d with
  | nil => Ok nil
  | (k, v) :: d' =>
      bind (f v) (fun v' =>
      bind (dict_comprehension f d') (fun r => Ok ((k, v') :: r)))
  end.

(** [l[i]], where a negative index counts from the end. *)
Definition index {A : Type} (l : list A) (i : Z) : result A :=
  let n := Z.of_nat (List.length l) in
  let j := if (i <? 0)%Z then (i + n)%Z else i in
  if (j <? 0)%Z then Raise IndexError
  else match List.nth_error l (Z.to_nat j) with
       | Some a => Ok a
       | None => Raise IndexError
       end.

(** [o.attr] for an attribute that exists only once it has been set. *)
Definition getattr {A : Type} (o : option A) : result A :=
  match o with
  | Some a => Ok a
  | None => Raise AttributeError
  end.

(** *** Strings (ASCII text) *)

(** [c.isspace()] *)
Definition is_space (c : ascii) : bool :=
  let n := nat_of_ascii c in
  (Nat.eqb n 32 || (Nat.leb 9 n && Nat.leb n 13)
   || (Nat.leb 28 n && Nat.leb n 31))%bool.

Fixpoint split_from (cur : string) (s : string) : list string :=
  match s with
  | EmptyString => if String.eqb cur "" then nil else cur :: nil
  | String c s' =>
      if is_space c
      then (if String.eqb cur "" then split_from "" s'
            else cur :: split_from "" s')
      else split_from (cur +:+ String c "") s'
  end.

(** [s.split()] *)
Definition split (s : string) : list string := split_from "" s.

(** [needle in hay] *)
Fixpoint contains (needle hay : string) : bool :=
  if String.prefix needle hay then true
  else match hay with
       | EmptyString => false
       | String _ hay' => contains needle hay'
       end.

Definition LF : ascii := ascii_of_nat 10.
Definition CR : ascii := ascii_of_nat 13.
Definition newline : string := String LF "".

(** [fp.readlines()] of a file opened in text mode: every line keeps its
    end, and the line ends ["\r\n"] and ["\r"] are read as ["\n"]. *)
Fixpoint readlines_from (cur : string) (s : string) : list string :=
  match s with
  | EmptyString => if String.eqb cur "" then nil else cur :: nil
  | String c s' =>
      if Ascii.eqb c LF then (cur +:+ newline) :: readlines_from "" s'
      else if Ascii.eqb c CR then
        match s' with
        | String c' s'' =>
            if Ascii.eqb c' LF
            then (cur +:+ newline) :: readlines_from "" s''
            else (cur +:+ newline) :: readlines_from "" s'
        | EmptyString => (cur +:+ newline) :: nil
        end
      else readlines_from (cur +:+ String c "") s'
  end.

Definition readlines (s : string) : list string := readlines_from "" s.

(** [str(k)] of an [int] *)
Definition str_int (k : Z) : string := NilZero.string_of_int (Z.to_int k).

Definition pow10 (e : Z) : Q :=
  if (0 <=? e)%Z then inject_Z (10 ^ e) else / inject_Z (10 ^ (- e)).

Definition ndigits (p : positive) : Z :=
  Z.of_nat (String.length (str_int (Zpos p))).

(** The decimal exponent [e] of a positive rational [a]:
    [10^e <= a < 10^(e+1)]. *)
Definition exponent10 (a : Q) : Z :=
  match Qnum a with
  | Zpos n =>
      let e := (ndigits n - ndigits (Qden a))%Z in
      if Qle_bool (pow10 e) a then e else (e - 1)%Z
  | _ => 0%Z
  end.

Definition str_exponent (e : Z) : string :=
  ((if (e <? 0)%Z then "e-" else "e+")
   +:+ (if (Z.abs e <? 10)%Z then "0" else "") +:+ str_int (Z.abs e)).

(** ["{:.5e}".format(q)]: one digit, a point, five digits, and an
    exponent of at least two digits; the last digit is rounded. *)
Definition format_5e (q : Q) : string :=
  let a := Qabs q in
  let e0 := exponent10 a in
  let m0 := round_half_even (a * pow10 (5 - e0)) in
  let '(m, e) :=
    if (m0 =? 1000000)%Z then (100000%Z, (e0 + 1)%Z) else (m0, e0) in
  let ds := if Qeq_bool a 0 then "000000"%string else str_int m in
  ((if Qle_bool 0 q then "" else "-")
   +:+ substring 0 1 ds +:+ "." +:+ substring 1 5 ds +:+ str_exponent e).

(** [sorted(keys)] *)
Definition sorted (keys : list Z) : list Z := merge_sort Z.le keys.

(** [enumerate(l)] *)
Fixpoint enumerate_from {A : Type} (i : nat) (l : list A) : list (nat * A) :=
  match l with
  | nil => nil
  | a :: l' => (i, a) :: enumerate_from (S i) l'
  end.

Definition enumerate {A : Type} (l : list A) : list (nat * A) :=
  enumerate_from 0 l.

(** The 16 printed digits of the binary64 constant [math.pi]. *)
Definition math_pi : Q := 3.141592653589793.

End Py.

Import Py.

#[global] Instance result_ret : MRet result := @Ok.
#[global] Instance result_bind : MBind result :=
  fun A B k m => Py.bind m k.

(** ** Code that mutates a state and may raise

    A method of an object, or a function that touches the file system,
    maps the state before the call to the state after it and a result.
    A raised exception keeps the state reached so far. *)

Definition stateE (S A : Type) : Type := S -> S * result A.

Definition st_ret {S A : Type} (a : A) : stateE S A := fun s => (s, Ok a).

Definition st_bind {S A B : Type} (m : stateE S A) (k : A -> stateE S B)
    : stateE S B :=
  fun s =>
    match m s with
    | (s', Ok a) => k a s'
    | (s', Raise e) => (s', Raise e)
    end.

(** A computation that does not touch the state. *)
Definition st_lift {S A : Type} (m : result A) : stateE S A :=
  fun s => (s, m).

Definition st_modify {S : Type} (f : S -> S) : stateE S unit :=
  fun s => (f s, Ok tt).

Definition st_get {S A : Type} (f : S -> A) : stateE S A :=
  fun s => (s, Ok (f s)).

(** [self.attr] for an attribute that a method creates. *)
Definition st_getattr {S A : Type} (f : S -> option A) : stateE S A :=
  fun s => (s, Py.getattr (f s)).

(** [for x in l: body(x)] *)
Fixpoint st_for {S A : Type} (l : list A) (body : A -> stateE S unit)
    : stateE S unit :=
  match l with
  | nil => st_ret tt
  | a :: l' => st_bind (body a) (fun _ => st_for l' body)
  end.

#[global] Instance stateE_ret {S : Type} : MRet (stateE S) :=
  fun A => @st_ret S A.
#[global] Instance stateE_bind {S : Type} : MBind (stateE S) :=
  fun A B k m => st_bind m k.

(** ** material_data.py *)

Module material_data.

Definition rhos (m : string) : option Q :=
  if String.eqb m "UO2" then Some 10.97
  else if String.eqb m "W" then Some 19.3
  else if String.eqb m "UN" then Some 11.3
  else None.

Definition mats (m : string) : option dict :=
  if String.eqb m "UO2" then
    Some ((8016%Z, 1.5204e-01) :: (92000%Z, 8.4796e-01) :: nil)
  else if String.eqb m "UN" then
    Some ((92000%Z, 0.94441) :: (7015%Z, 0.05559) :: nil)
  else if String.eqb m "CO2" then
    Some ((6000%Z, 2.7291e-01) :: (8016%Z, 7.2709e-01) :: nil)
  else if String.eqb m "W" then
    Some ((74180%Z, 1.1746e-03) :: (74182%Z, 2.6227e-01)
          :: (74183%Z, 1.4241e-01) :: (74184%Z, 3.0658e-01)
          :: (74186%Z, 2.8757e-01) :: nil)
  else if String.eqb m "H2O" then
    Some ((1001%Z, 1.1187e-01) :: (1002%Z, 2.5713e-05)
          :: (8016%Z, 8.8811e-01) :: nil)
  else None.

Definition mmO : Q := 32.
Definition mmN : Q := 14.0067.
Definition mmU25 : Q := 235.04.
Definition mmU28 : Q := 238.05.

(** The body of the loop [for isotope in mats[fuel]]; [u] is
    [mats[fuel][92000]], looked up only on the branch that uses it. *)
Definition enrich_step (enrich : Q) (tmpl : dict) (fuel_comp : dict)
    (isotope : Z) : result dict :=
  if Z.eqb isotope 92000 then
    u ← getitem (dict_get 92000 tmpl);
    Ok (dict_set 92238 (u * (1 - enrich))
         (dict_set 92235 (u * enrich) fuel_comp))
  else
    v ← getitem (dict_get isotope tmpl);
    Ok (dict_set isotope v fuel_comp).

Fixpoint enrich_loop (enrich : Q) (tmpl : dict) (isotopes : list Z)
    (fuel_comp : dict) : result dict :=
  match isotopes with
  | nil => Ok fuel_comp
  | isotope :: rest =>
      fuel_comp' ← enrich_step enrich tmpl fuel_comp isotope;
      enrich_loop enrich tmpl rest fuel_comp'
  end.

(** The molar mass shared by the two [if fuel == ...] branches. *)
Definition molar_mass (mm : Q) (enrich : Q) : result Q :=
  u ← truediv 1 ((enrich / mmU25) + ((1 - enrich) / mmU28));
  Ok (mm + u).

Definition enrich_fuel (enrich : Q) (fuel : string) : result (dict * Q) :=
  tmpl ← getitem (mats fuel);
  fuel_comp ← enrich_loop enrich tmpl (dict_keys tmpl) nil;
  (* mmfuel is unbound until one of the two tests succeeds *)
  mmfuel0 ← (if String.eqb fuel "UN"
              then (m ← molar_mass mmN enrich; Ok (Some m))
              else Ok None);
  mmfuel ← (if String.eqb fuel "UO2"
            then (m ← molar_mass mmO enrich; Ok (Some m))
            else Ok mmfuel0);
  match mmfuel with
  | Some m => Ok (fuel_comp, m)
  | None => Raise UnboundLocalError
  end.

End material_data.

(** ** The file system and the external collaborators

    The solver, the template engine and the conversions between floats
    and text are not code of this repository: they are the fields of a
    class, and every theorem below holds for all of their behaviours. *)

Abbreviation fsys := (gmap string string).

(** A value passed to a slot of the deck template. *)
Inductive value : Type :=
| VStr (s : string)
| VFloat (q : Q).

Class External : Type := {
  (** [float(tok)] *)
  float : string -> result Q;
  (** [str(x)] of a float *)
  str : Q -> string;
  (** [Template(text).substitute] applied to the keyword arguments *)
  substitute : string -> list (string * value) -> result string;
  (** what a run of [mcnp6] with the given argument does to the files *)
  mcnp6 : string -> fsys -> fsys
}.

(** [open(name, 'r').read()] *)
Definition read_file (name : string) : stateE fsys string :=
  fun fs =>
    match fs !! name with
    | Some text => (fs, Ok text)
    | None => (fs, Raise FileNotFoundError)
    end.

(** [open(name, 'w').write(text)] *)
Definition write_file (name text : string) : stateE fsys unit :=
  st_modify (insert name text).

(** [os.remove(name)] *)
Definition os_remove (name : string) : stateE fsys unit :=
  fun fs =>
    match fs !! name with
    | Some _ => (delete name fs, Ok tt)
    | None => (fs, Raise FileNotFoundError)
    end.

(** ** mcnp_inputs.py *)

Module mcnp_inputs.

Import material_data.

(** One iteration of the loop of [merge_comps]; [v] is [compB[isotope]]. *)
Definition merge_step (compA : dict) (item : Z * Q) : dict :=
  let (isotope, v) := item in
  match dict_get isotope compA with
  | Some a => dict_set isotope (a + v) compA
  | None => dict_set isotope v compA
  end.

Definition merge_comps (compA compB : dict) : dict :=
  List.fold_left merge_step compB compA.

Record HomogeneousInput : Type := mkHomogeneousInput {
  z : Q;
  r : Q;
  vfrac_fuel : Q;
  t_refl : Q;
  (* attributes created by the methods *)
  rho : option Q;
  MM_fuel : option Q;
  fuel_string : option string
}.

(** [HomogeneousInput(radius, length, vfrac_fuel, refl_t)] *)
Definition init (radius length vfrac_fuel refl_t : Q) : HomogeneousInput :=
  {| z := length; r := radius; vfrac_fuel := vfrac_fuel; t_refl := refl_t;
     rho := None; MM_fuel := None; fuel_string := None |}.

Definition default_refl_t : Q := 15.

Definition set_rho (v : Q) (self : HomogeneousInput) : HomogeneousInput :=
  {| z := z self; r := r self; vfrac_fuel := vfrac_fuel self;
     t_refl := t_refl self; rho := Some v; MM_fuel := MM_fuel self;
     fuel_string := fuel_string self |}.

Definition set_MM_fuel (v : Q) (self : HomogeneousInput) : HomogeneousInput :=
  {| z := z self; r := r self; vfrac_fuel := vfrac_fuel self;
     t_refl := t_refl self; rho := rho self; MM_fuel := Some v;
     fuel_string := fuel_string self |}.

Definition set_fuel_string (v : string) (self : HomogeneousInput)
    : HomogeneousInput :=
  {| z := z self; r := r self; vfrac_fuel := vfrac_fuel self;
     t_refl := t_refl self; rho := rho self; MM_fuel := MM_fuel self;
     fuel_string := Some v |}.

(** The truth value of the argument [matr]: [None] and the empty string
    are false. *)
Definition matr_given (matr : option string) : option string :=
  match matr with
  | Some m => if String.eqb m "" then None else Some m
  | None => None
  end.

(** [{iso : comp*mfrac / rho for iso, comp in d.items()}] *)
Definition normed (mfrac rho : Q) (d : dict) : result dict :=
  dict_comprehension (fun comp => truediv (comp * mfrac) rho) d.

(** Default values of the keyword arguments of [homog_core]. *)
Definition default_enrich : Q := 0.93.
Definition default_r_cool : Q := 0.5.
Definition default_rho_cool : Q := 0.079082.
Definition default_c : Q := 0.031.

Definition homog_core (fuel cool : string) (matr : option string)
    (enrich r_cool rho_cool c : Q) : stateE HomogeneousInput dict :=
  '(matr_frac, mfrac_matr) ←
     match matr_given matr with
     | Some m =>
         vfrac ← st_get vfrac_fuel;
         d ← st_lift (getitem (rhos m));
         st_ret (0.6, vfrac * d * (1 - 0.6))
     | None => st_ret (1, 0)
     end;
  (* volume-weighted densities/masses *)
  vfrac ← st_get vfrac_fuel;
  d_fuel ← st_lift (getitem (rhos fuel));
  let mfrac_fuel := vfrac * d_fuel * matr_frac in
  let mfrac_cool := (1 - vfrac) * rho_cool in
  (* smeared density *)
  _ ← st_modify (set_rho (Py.round (mfrac_fuel + mfrac_cool + mfrac_matr) 5));
  '(fuel_comp, mm) ← st_lift (enrich_fuel enrich fuel);
  _ ← st_modify (set_MM_fuel mm);
  self_rho ← st_getattr rho;
  st_lift (
    normed_fuel_mfrac ← normed mfrac_fuel self_rho fuel_comp;
    cool_comp ← getitem (mats cool);
    normed_cool_mfrac ← normed mfrac_cool self_rho cool_comp;
    components ←
      match matr_given matr with
      | Some m =>
          matr_comp ← getitem (mats m);
          normed_matr_mfrac ← normed mfrac_matr self_rho matr_comp;
          Ok (normed_fuel_mfrac :: normed_cool_mfrac
              :: normed_matr_mfrac :: nil)
      | None => Ok (normed_fuel_mfrac :: normed_cool_mfrac :: nil)
      end;
    (* homogenize the material by merging components *)
    Ok (List.fold_left merge_comps components nil)).

(** [self.fuel_string += s] *)
Definition iadd_fuel_string (s : string) : stateE HomogeneousInput unit :=
  t ← st_getattr fuel_string;
  st_modify (set_fuel_string (t +:+ s)).

(** The body of the loop of [write_mat_string]; [n] is
    [len(homog_comp.keys())]. *)
Definition mat_entry (homog_comp : dict) (n : nat) (item : nat * Z)
    : stateE HomogeneousInput unit :=
  let (idx, isotope) := item in
  v ← st_lift (getitem (dict_get isotope homog_comp));
  if Qeq_bool (Qabs v) 0 then st_ret tt
  else
    _ ← iadd_fuel_string
          ("     " +:+ str_int isotope +:+ " -" +:+ format_5e v);
    (* no endline character for last isotope *)
    if (Z.of_nat idx <? Z.of_nat n - 1)%Z
    then iadd_fuel_string newline
    else st_ret tt.

Definition write_mat_string (homog_comp : dict)
    : stateE HomogeneousInput unit :=
  (* Initialize material card string *)
  _ ← st_modify (set_fuel_string ("m1" +:+ newline));
  (* loop through isotopes and write mcnp-style mass fractions *)
  st_for (enumerate (sorted (dict_keys homog_comp)))
         (mat_entry homog_comp (List.length (dict_keys homog_comp))).

Definition default_header : string := "Fuel Fraction Experiment".

Definition write_input `{External} (self : HomogeneousInput)
    (name header : string) : stateE fsys unit :=
  (* load template, substitute parameters and write input file *)
  text ← read_file "base_input.txt";
  file_string ← st_lift (
    self_fuel_string ← getattr (fuel_string self);
    self_rho ← getattr (rho self);
    substitute text
      (("model_information", VStr header)
       :: ("r_core", VFloat (r self))
       :: ("core_z", VFloat (z self))
       :: ("refl_t", VFloat (t_refl self))
       :: ("refl_z", VFloat (z self + 2 * t_refl self))
       :: ("r_refl", VFloat (r self + t_refl self))
       :: ("fuel_string", VStr self_fuel_string)
       :: ("volume", VFloat (r self * r self * z self * math_pi))
       :: ("fuel_rho", VFloat self_rho) :: nil));
  (* write the file *)
  write_file name file_string.

End mcnp_inputs.

(** ** cooled_cyl.py *)

Module cooled_cyl.

Import material_data mcnp_inputs.

Section WithExternal.

Context `{External}.

(** The indices of the lines that contain the marker. *)
Definition res_idx (lines : list string) : list Z :=
  List.map (fun p => Z.of_nat (fst p))
    (List.filter (fun p => contains "final result" (snd p))
       (enumerate lines)).

Definition parse_output (basename : string) : stateE fsys Q :=
  text ← read_file (basename +:+ "o");
  let lines := readlines text in
  st_lift (
    last ← index (res_idx lines) (-1);
    line ← index lines last;
    tok ← index (split line) 2;
    float tok).

(** A method call on the object [input], whose state is local to
    [write_inp]: an exception leaves [write_inp] and the object is lost. *)
Definition call_method {A : Type} (m : stateE HomogeneousInput A)
    (input : HomogeneousInput) : result (HomogeneousInput * A) :=
  match m input with
  | (input', Ok a) => Ok (input', a)
  | (_, Raise e) => Raise e
  end.

Definition write_inp (frac core_r : Q) (basename coolant fuel : string)
    (matr : option string) (cool_rho : Q) : stateE fsys unit :=
  let AR := 1 in
  let L := core_r * AR in
  let input := init core_r L frac default_refl_t in
  '(input, homog_comp) ← st_lift (call_method
      (homog_core fuel coolant matr 0.93 0.5 cool_rho default_c) input);
  '(input, _) ← st_lift (call_method (write_mat_string homog_comp) input);
  write_input input basename default_header.

(** [call(["mcnp6", arg], stdout=DEVNULL)]; the exit code is dropped. *)
Definition call_mcnp6 (arg : string) : stateE fsys unit :=
  st_modify (mcnp6 arg).

Definition basename_of (frac radius : Q) : string :=
  str (Py.round frac 5) +:+ "_" +:+ str (Py.round radius 5) +:+ ".i".

Definition calc_keff_error (radius frac : Q) (coolant fuel : string)
    (matr : option string) (cool_rho : Q) : stateE fsys Q :=
  let basename := basename_of frac radius in
  _ ← write_inp frac radius basename coolant fuel matr cool_rho;
  _ ← call_mcnp6 ("n= " +:+ basename +:+ " tasks 8");
  keff ← parse_output basename;
  _ ← os_remove (basename +:+ "r");
  _ ← os_remove (basename +:+ "s");
  _ ← os_remove (basename +:+ "o");
  _ ← os_remove basename;
  st_ret (Qabs (keff - 1.0)).

End WithExternal.

End cooled_cyl.

(** ** Instances of the external collaborators, for closed examples *)

Module Instances.

Definition digit_of (c : ascii) : option Z :=
  let n := nat_of_ascii c in
  if (Nat.leb 48 n && Nat.leb n 57)%bool
  then Some (Z.of_nat (n - 48)) else None.

(** Reads the digits at the head of [s]: their value after [acc], their
    number, and the rest of the text. *)
Fixpoint digits (s : string) (acc : Z) (n : nat) : Z * nat * string :=
  match s with
  | EmptyString => (acc, n, s)
  | String c s' =>
      match digit_of c with
      | Some d => digits s' (10 * acc + d)%Z (S n)
      | None => (acc, n, s)
      end
  end.

Definition sign_of (s : string) : bool * string :=
  match s with
  | String "-" s' => (true, s')
  | String "+" s' => (false, s')
  | _ => (false, s)
  end.

Definition exponent_of (s : string) : option Z :=
  match s with
  | EmptyString => Some 0%Z
  | String c s' =>
      if (Ascii.eqb c "e" || Ascii.eqb c "E")%bool then
        let (neg, s1) := sign_of s' in
        match digits s1 0 0 with
        | (e, S _, EmptyString) => Some (if neg then (- e)%Z else e)
        | _ => None
        end
      else None
  end.

(** [float(tok)] for decimal literals: a sign, digits with at most one
    point, and an exponent. *)
Definition float_decimal (tok : string) : result Q :=
  let (neg, s0) := sign_of tok in
  let '(i, ni, s1) := digits s0 0 0 in
  let '(m, nf, s2) :=
    match s1 with
    | String "." s1' => digits s1' i 0
    | _ => (i, 0%nat, s1)
    end in
  match (ni + nf)%nat, exponent_of s2 with
  | S _, Some e =>
      let a := inject_Z m * pow10 (e - Z.of_nat nf) in
      Ok (if neg then - a else a)
  | _, _ => Raise ValueError
  end.

(** [str(x)] for a float that is a multiple of [1e-5], in the positional
    notation that Python uses from [1e-4] up: the digits after the point
    without trailing zeros. *)
Fixpoint strip_zeros (n : nat) (k : Z) : nat * Z :=
  match n with
  | O => (O, k)
  | S n' => if (k mod 10 =? 0)%Z then strip_zeros n' (k / 10)%Z else (n, k)
  end.

Fixpoint zeros (n : nat) : string :=
  match n with
  | O => ""
  | S n' => "0" +:+ zeros n'
  end.

Definition pad_zeros (n : nat) (s : string) : string :=
  zeros (n - String.length s) +:+ s.

Definition str_decimal (x : Q) : string :=
  let k := round_half_even (Qabs x * 100000) in
  let ip := (k / 100000)%Z in
  let (n, f) := strip_zeros 4 (k mod 100000)%Z in
  (if Qle_bool 0 x then "" else "-")
  +:+ str_int ip +:+ "." +:+ pad_zeros (S n) (str_int f).

(** A template engine that accepts the templates without the character
    [$], which have no slot: the text is returned as it is. *)
Definition substitute_plain (text : string) (slots : list (string * value))
    : result string :=
  if contains "$" text then Raise KeyError else Ok text.

(** The deck name inside the argument ["n= <deck> tasks 8"]. *)
Definition deck_of (arg : string) : string :=
  substring 3 (String.length arg - 11) arg.

(** A solver that reports a result, and one that stops before it. *)
Definition solver_converged (arg : string) (fs : fsys) : fsys :=
  let deck := deck_of arg in
  <[deck +:+ "o" :=
      " cycle  keff" +:+ newline
      +:+ "     final result     0.98731   0.00077" +:+ newline
      +:+ "     final result     0.99413   0.00052" +:+ newline]>
    (<[deck +:+ "s" := "srctp"]> (<[deck +:+ "r" := "runtpe"]> fs)).

Definition solver_aborted (arg : string) (fs : fsys) : fsys :=
  let deck := deck_of arg in
  <[deck +:+ "o" := " bad trouble in subroutine" +:+ newline]>
    (<[deck +:+ "s" := "srctp"]> (<[deck +:+ "r" := "runtpe"]> fs)).

Definition converged : External :=
  {| float := float_decimal; str := str_decimal;
     substitute := substitute_plain; mcnp6 := solver_converged |}.

Definition aborted : External :=
  {| float := float_decimal; str := str_decimal;
     substitute := substitute_plain; mcnp6 := solver_aborted |}.

(** A working directory that holds only the template. *)
Definition workdir : fsys :=
  {[ "base_input.txt" := "Fuel Fraction Experiment" +:+ newline ]}.

End Instances.

(** ** Further solvers, for closed examples *)

Module MoreInstances.

Import Instances.

(** A solver that writes nothing. *)
Definition solver_idle (arg : string) (fs : fsys) : fsys := fs.

(** A solver that reports a result but leaves no [r] file. *)
Definition solver_no_runtpe (arg : string) (fs : fsys) : fsys :=
  let deck := deck_of arg in
  <[deck +:+ "o" :=
      "     final result     0.99413   0.00052" +:+ newline]>
    (<[deck +:+ "s" := "srctp"]> fs).

Definition idle : External :=
  {| float := float_decimal; str := str_decimal;
     substitute := substitute_plain; mcnp6 := solver_idle |}.

Definition no_runtpe : External :=
  {| float := float_decimal; str := str_decimal;
     substitute := substitute_plain; mcnp6 := solver_no_runtpe |}.

End MoreInstances.

(** ** The specification's mixing rule, in its own words *)

Module Spec.

(** The share of the fuel region's volume that the fuel takes. *)
Definition matrixSplit (matrix_present : bool) : Q :=
  if matrix_present then 0.6 else 1.

Definition fuel_partial (volumeFractionFuel fuelDensity split : Q) : Q :=
  volumeFractionFuel * fuelDensity * split.

Definition coolant_partial (volumeFractionFuel coolantDensity : Q) : Q :=
  (1 - volumeFractionFuel) * coolantDensity.

Definition matrix_partial (volumeFractionFuel : Q) (matrixDensity : option Q)
    (split : Q) : Q :=
  match matrixDensity with
  | Some d => volumeFractionFuel * d * (1 - split)
  | None => 0
  end.

Definition is_present {A : Type} (o : option A) : bool :=
  match o with Some _ => true | None => false end.

Definition smeared_density (volumeFractionFuel fuelDensity coolantDensity : Q)
    (matrixDensity : option Q) : Q :=
  let split := matrixSplit (is_present matrixDensity) in
  Py.round (fuel_partial volumeFractionFuel fuelDensity split
            + coolant_partial volumeFractionFuel coolantDensity
            + matrix_partial volumeFractionFuel matrixDensity split) 5.

End Spec.

Import material_data mcnp_inputs cooled_cyl.

(** ** Notions used in the statements *)

(** The attributes that [homog_core] does not assign. *)
Definition same_geometry (s s' : HomogeneousInput) : Prop :=
  z s' = z s /\ r s' = r s /\ vfrac_fuel s' = vfrac_fuel s
  /\ t_refl s' = t_refl s /\ fuel_string s' = fuel_string s.

Definition keeps_geometry {A : Type} (m : stateE HomogeneousInput A) : Prop :=
  forall s, same_geometry s (fst (m s)).

(** The denominator of the molar mass of the enriched uranium. *)
Definition molar_den (e : Q) : Q := e / mmU25 + (1 - e) / mmU28.

(** The test of [parse_output] on a line. *)
Definition marker (line : string) : bool := contains "final result" line.

(** The card of a composition, written into a fresh object. *)
Definition card (homog_comp : dict) : option string :=
  fuel_string (fst (write_mat_string homog_comp (init 30 30 0.5 15))).

(** The text of one entry of the card. *)
Definition entry_text (isotope : Z) (v : Q) : string :=
  "     " +:+ str_int isotope +:+ " -" +:+ format_5e v.

(** What one iteration of the loop appends. *)
Definition piece (homog_comp : dict) (n : nat) (item : nat * Z) : string :=
  let (idx, isotope) := item in
  match dict_get isotope homog_comp with
  | Some v =>
      if Qeq_bool (Qabs v) 0 then ""
      else entry_text isotope v
           +:+ (if (Z.of_nat idx <? Z.of_nat n - 1)%Z then newline else "")
  | None => ""
  end.

Fixpoint concat_pieces (l : list string) : string :=
  match l with
  | nil => ""
  | s :: l' => s +:+ concat_pieces l'
  end.

(** The sum of two optional mass fractions of one isotope. *)
Definition add_opt (a b : option Q) : option Q :=
  match a, b with
  | Some x, Some y => Some (x + y)
  | Some x, None => Some x
  | None, Some y => Some y
  | None, None => None
  end.

(** A composition with every value multiplied by [mfrac / rho]. *)
Definition scaled (mfrac rho : Q) (d : dict) : dict :=
  List.map (fun kv => (fst kv, snd kv * mfrac / rho)) d.



(** The value of an isotope is missing or zero. *)
Definition zero_valued (homog_comp : dict) (k : Z) : bool :=
  match dict_get k homog_comp with
  | Some v => Qeq_bool (Qabs v) 0
  | None => true
  end.

(** The keyword arguments that [write_input] passes to the template. *)
Definition deck_slots (header : string) (radius length refl_t : Q)
    (card_text : string) (density : Q) : list (string * value) :=
  ("model_information", VStr header)
  :: ("r_core", VFloat radius)
  :: ("core_z", VFloat length)
  :: ("refl_t", VFloat refl_t)
  :: ("refl_z", VFloat (length + 2 * refl_t))
  :: ("r_refl", VFloat (radius + refl_t))
  :: ("fuel_string", VStr card_text)
  :: ("volume", VFloat (radius * radius * length * math_pi))
  :: ("fuel_rho", VFloat density) :: nil.

(** * Properties *)

(** ** The frame of the methods of [HomogeneousInput] *)

Section Frame.

Lemma same_geometry_refl s : same_geometry s s.
Proof. repeat split. Qed.

Lemma same_geometry_trans s1 s2 s3 :
  same_geometry s1 s2 -> same_geometry s2 s3 -> same_geometry s1 s3.
Proof.
  unfold same_geometry. intros (?&?&?&?&?) (?&?&?&?&?).
  repeat split; congruence.
Qed.

Lemma keeps_ret {A : Type} (a : A) : keeps_geometry (st_ret a).
Proof. intros s. apply same_geometry_refl. Qed.

Lemma keeps_lift {A : Type} (m : result A) : keeps_geometry (st_lift m).
Proof. intros s. apply same_geometry_refl. Qed.

Lemma keeps_get {A : Type} (f : HomogeneousInput -> A) :
  keeps_geometry (st_get f).
Proof. intros s. apply same_geometry_refl. Qed.

Lemma keeps_getattr {A : Type} (f : HomogeneousInput -> option A) :
  keeps_geometry (st_getattr f).
Proof. intros s. apply same_geometry_refl. Qed.

Lemma keeps_set_rho v : keeps_geometry (st_modify (set_rho v)).
Proof. intros s. repeat split. Qed.

Lemma keeps_set_MM_fuel v : keeps_geometry (st_modify (set_MM_fuel v)).
Proof. intros s. repeat split. Qed.

Lemma keeps_bind {A B : Type} (m : stateE HomogeneousInput A)
    (k : A -> stateE HomogeneousInput B) :
  keeps_geometry m -> (forall a, keeps_geometry (k a)) ->
  keeps_geometry (m ≫= k).
Proof.
  intros Hm Hk s. unfold mbind, stateE_bind, st_bind.
  specialize (Hm s). destruct (m s) as [s1 [a|e]]; simpl in *.
  - eapply same_geometry_trans; [exact Hm | apply Hk].
  - exact Hm.
Qed.

End Frame.

Create HintDb frame.

#[local] Hint Resolve keeps_ret keeps_lift keeps_get keeps_getattr keeps_set_rho
  keeps_set_MM_fuel : frame.

Ltac keeps_step :=
  repeat first
    [ apply keeps_bind; [solve [auto with frame] | intros ?]
    | match goal with
      | |- keeps_geometry (let '(_, _) := ?p in _) => destruct p
      end ];
  auto with frame.

(** C10. Whatever its arguments, and whether it returns or raises,
    [homog_core] leaves the attributes [z], [r], [vfrac_fuel] and [t_refl]
    (and [fuel_string]) of the object as they were: the only attributes
    it assigns are [rho] and [MM_fuel]. *)
Theorem homog_core_frame (fuel cool : string) (matr : option string)
    (enrich r_cool rho_cool c : Q) (self : HomogeneousInput) :
  let self' := fst (homog_core fuel cool matr enrich r_cool rho_cool c self) in
  z self' = z self /\ r self' = r self
  /\ vfrac_fuel self' = vfrac_fuel self /\ t_refl self' = t_refl self
  /\ fuel_string self' = fuel_string self.
Proof.
  cbv zeta. change (same_geometry self
    (fst (homog_core fuel cool matr enrich r_cool rho_cool c self))).
  revert self. change (keeps_geometry
    (homog_core fuel cool matr enrich r_cool rho_cool c)).
  unfold homog_core.
  apply keeps_bind.
  - destruct (matr_given matr); keeps_step.
  - intros [matr_frac mfrac_matr]. keeps_step.
Qed.

(** ** Enrichment *)

Lemma mats_keys (m : string) (d : dict) :
  mats m = Some d ->
  m = "UO2" \/ m = "UN" \/ m = "CO2" \/ m = "W" \/ m = "H2O".
Proof.
  unfold mats.
  repeat match goal with
  | |- context [String.eqb m ?k] =>
      destruct (String.eqb_spec m k); [tauto |]
  end.
  discriminate.
Qed.

Lemma molar_mass_denominator (e : Q) :
  0 < e -> e < 1 -> 0 < e / mmU25 + (1 - e) / mmU28.
Proof.
  intros H0 H1. unfold mmU25, mmU28, Qdiv.
  assert (E5 : / 235.04 == 100 # 23504) by reflexivity.
  assert (E8 : / 238.05 == 100 # 23805) by reflexivity.
  rewrite E5, E8. lra.
Qed.

Lemma molar_mass_ok (mm e : Q) :
  0 < e -> e < 1 ->
  molar_mass mm e = Ok (mm + 1 / (e / mmU25 + (1 - e) / mmU28)).
Proof.
  intros H0 H1. unfold molar_mass, truediv.
  destruct (Qeq_bool _ 0) eqn:E; [| reflexivity].
  apply Qeq_bool_eq in E.
  pose proof (molar_mass_denominator e H0 H1) as Hd.
  rewrite E in Hd. exfalso. revert Hd. apply Qlt_irrefl.
Qed.


Lemma enrich_fuel_UN (e : Q) :
  0 < e -> e < 1 ->
  enrich_fuel e "UN"
  = Ok ((92235%Z, 0.94441 * e) :: (92238%Z, 0.94441 * (1 - e))
        :: (7015%Z, 0.05559) :: nil,
        mmN + 1 / (e / mmU25 + (1 - e) / mmU28)).
Proof.
  intros H0 H1. unfold enrich_fuel. cbn.
  rewrite (molar_mass_ok mmN e H0 H1). reflexivity.
Qed.



(** C9. For a fuel identifier other than ['UN'] and ['UO2'], [enrich_fuel]
    raises: [UnboundLocalError] at the [return] when the identifier is a
    known material (the molar mass was never assigned), [KeyError] at the
    first lookup when it is not. Hence a call that returns has fuel
    ['UN'] or ['UO2']. *)
Theorem enrich_fuel_other_fuel (enrich : Q) (fuel : string) :
  (fuel <> "UN" -> fuel <> "UO2" ->
   enrich_fuel enrich fuel
   = Raise (match mats fuel with
            | Some _ => UnboundLocalError
            | None => KeyError
            end))
  /\ (forall x, enrich_fuel enrich fuel = Ok x ->
      fuel = "UN" \/ fuel = "UO2").
Proof.
  assert (H : fuel <> "UN" -> fuel <> "UO2" ->
    enrich_fuel enrich fuel
    = Raise (match mats fuel with
             | Some _ => UnboundLocalError
             | None => KeyError
             end)).
  { intros Hn Ho. destruct (mats fuel) as [d|] eqn:E.
    - destruct (mats_keys fuel d E) as [->|[->|[->|[->| ->]]]];
        try contradiction; reflexivity.
    - unfold enrich_fuel. rewrite E. reflexivity. }
  split; [exact H |].
  intros x Hx.
  destruct (String.eqb_spec fuel "UN"); [tauto |].
  destruct (String.eqb_spec fuel "UO2"); [tauto |].
  rewrite H in Hx by assumption. discriminate.
Qed.

Lemma enrich_fuel_other_fuel_witness :
  enrich_fuel 0.93 "W" = Raise UnboundLocalError
  /\ enrich_fuel 0.93 "Pu" = Raise KeyError.
Proof.
  split.
  - apply (proj1 (enrich_fuel_other_fuel 0.93 "W")); discriminate.
  - apply (proj1 (enrich_fuel_other_fuel 0.93 "Pu")); discriminate.
Defined.

(** ** The smeared density *)

Ltac unfold_state :=
  unfold mbind, mret, stateE_bind, stateE_ret, st_bind, st_ret, st_lift,
    st_get, st_getattr, st_modify in *.



Example smeared_density_UN_CO2_W :
  Spec.smeared_density 0.9 11.3 0.079082 (Some 19.3) == 13.05791.
Proof. reflexivity. Qed.

(** ** Sums of mass fractions *)

Lemma dict_sum_cons (k : Z) (v : Q) (d : dict) :
  dict_sum ((k, v) :: d) = v + dict_sum d.
Proof. reflexivity. Qed.




Lemma truediv_ok (a b : Q) : ~ b == 0 -> truediv a b = Ok (a / b).
Proof.
  intros Hb. unfold truediv.
  destruct (Qeq_bool b 0) eqn:E; [| reflexivity].
  apply Qeq_bool_eq in E. contradiction.
Qed.

Lemma truediv_zero (a b : Q) : b == 0 -> truediv a b = Raise ZeroDivisionError.
Proof.
  intros Hb. unfold truediv. apply Qeq_eq_bool in Hb. rewrite Hb. reflexivity.
Qed.

Lemma normed_ok (mfrac rho : Q) (d : dict) :
  ~ rho == 0 ->
  exists d', normed mfrac rho d = Ok d'
             /\ dict_sum d' == dict_sum d * mfrac / rho.
Proof.
  intros Hr. unfold normed.
  induction d as [|[k v] d (d' & E & Hs)]; simpl.
  - exists nil. split; [reflexivity |]. unfold dict_sum. simpl. field. exact Hr.
  - rewrite (truediv_ok _ _ Hr). simpl. rewrite E. simpl.
    eexists. split; [reflexivity |].
    rewrite !dict_sum_cons, Hs. field. exact Hr.
Qed.

Lemma normed_zero (mfrac rho : Q) (d : dict) :
  rho == 0 -> d <> nil -> normed mfrac rho d = Raise ZeroDivisionError.
Proof.
  intros Hr Hd. destruct d as [|[k v] d]; [contradiction |].
  unfold normed. simpl. rewrite (truediv_zero _ _ Hr). reflexivity.
Qed.

(** ** Rounding *)



(** ** The result of [homog_core] *)

Section HomogCore.

Variables (fuel cool : string) (matr : option string).
Variables (enrich r_cool rho_cool c : Q) (self : HomogeneousInput).
Variable fd : Q.
Hypothesis fuel_density : rhos fuel = Some fd.
Hypothesis matrix_density :
  forall m, matr_given matr = Some m -> is_Some (rhos m).

Let vf : Q := vfrac_fuel self.
Let matrixDensity : option Q := matr_given matr ≫= rhos.
Let split : Q := Spec.matrixSplit (Spec.is_present matrixDensity).
Let mfrac_fuel : Q := Spec.fuel_partial vf fd split.
Let mfrac_cool : Q := Spec.coolant_partial vf rho_cool.
Let mfrac_matr : Q := Spec.matrix_partial vf matrixDensity split.
Let rho_val : Q := Spec.smeared_density vf fd rho_cool matrixDensity.

(** What [homog_core] returns, with the object left out. *)
Lemma homog_core_result :
  snd (homog_core fuel cool matr enrich r_cool rho_cool c self)
  = ('(fuel_comp, mm) ← enrich_fuel enrich fuel;
     normed_fuel_mfrac ← normed mfrac_fuel rho_val fuel_comp;
     cool_comp ← getitem (mats cool);
     normed_cool_mfrac ← normed mfrac_cool rho_val cool_comp;
     components ←
       match matr_given matr with
       | Some m =>
           matr_comp ← getitem (mats m);
           normed_matr_mfrac ← normed mfrac_matr rho_val matr_comp;
           Ok (normed_fuel_mfrac :: normed_cool_mfrac
               :: normed_matr_mfrac :: nil)
       | None => Ok (normed_fuel_mfrac :: normed_cool_mfrac :: nil)
       end;
     Ok (List.fold_left merge_comps components nil)).
Proof.
  subst rho_val mfrac_matr mfrac_cool mfrac_fuel split matrixDensity vf.
  unfold homog_core. unfold_state.
  destruct (matr_given matr) as [m|] eqn:Em; simpl.
  - destruct (matrix_density m eq_refl) as [d Hd]. rewrite Hd, fuel_density.
    simpl.
    destruct (enrich_fuel enrich fuel) as [[fuel_comp mm]|e]; reflexivity.
  - rewrite fuel_density. simpl.
    destruct (enrich_fuel enrich fuel) as [[fuel_comp mm]|e]; reflexivity.
Qed.

End HomogCore.

Lemma enrich_fuel_UO2_any (e : Q) :
  enrich_fuel e "UO2"
  = (u ← truediv 1 (molar_den e);
     Ok ((8016%Z, 1.5204e-01) :: (92235%Z, 8.4796e-01 * e)
         :: (92238%Z, 8.4796e-01 * (1 - e)) :: nil, mmO + u)).
Proof.
  unfold enrich_fuel, molar_mass, molar_den, truediv.
  destruct (Qeq_bool _ 0); reflexivity.
Qed.

Lemma enrich_fuel_UN_any (e : Q) :
  enrich_fuel e "UN"
  = (u ← truediv 1 (molar_den e);
     Ok ((92235%Z, 0.94441 * e) :: (92238%Z, 0.94441 * (1 - e))
         :: (7015%Z, 0.05559) :: nil, mmN + u)).
Proof.
  unfold enrich_fuel, molar_mass, molar_den, truediv.
  destruct (Qeq_bool _ 0); reflexivity.
Qed.

Lemma enrich_fuel_cases (e : Q) (fuel : string) :
  fuel = "UO2" \/ fuel = "UN" ->
  (~ molar_den e == 0 ->
   exists comp mm, enrich_fuel e fuel = Ok (comp, mm)
                   /\ comp <> nil /\ dict_sum comp == 1)
  /\ (molar_den e == 0 -> enrich_fuel e fuel = Raise ZeroDivisionError).
Proof.
  intros [-> | ->]; (split; [intros Hd | intros Hd]);
    rewrite ?enrich_fuel_UO2_any, ?enrich_fuel_UN_any;
    rewrite ?(truediv_ok _ _ Hd), ?(truediv_zero _ _ Hd);
    try reflexivity.
  - do 2 eexists. split; [reflexivity |]. split; [discriminate |].
    unfold dict_sum. cbn [dict_values List.map fold_right snd].
    assert (E1 : 1.5204e-01 == 0.15204) by reflexivity.
    assert (E2 : 8.4796e-01 == 0.84796) by reflexivity.
    rewrite E1, E2. lra.
  - do 2 eexists. split; [reflexivity |]. split; [discriminate |].
    unfold dict_sum. cbn [dict_values List.map fold_right snd]. lra.
Qed.

(** ** Normalization of the homogenized composition *)




(** ** Range of the volume fraction and of the enrichment *)




(** ** Result extraction *)

Lemma enumerate_from_app {A : Type} (i : nat) (l1 l2 : list A) :
  enumerate_from i (l1 ++ l2)
  = enumerate_from i l1 ++ enumerate_from (i + List.length l1) l2.
Proof.
  revert i. induction l1 as [|a l1 IH]; intros i; simpl.
  - rewrite Nat.add_0_r. reflexivity.
  - rewrite IH. do 3 f_equal. lia.
Qed.

Lemma filter_no_marker (i : nat) (lines : list string) :
  Forall (fun l => marker l = false) lines ->
  List.filter (fun p => contains "final result" (snd p))
    (enumerate_from i lines) = nil.
Proof.
  intros H. revert i. induction H as [|l lines Hl _ IH]; intros i; simpl.
  - reflexivity.
  - unfold marker in Hl. rewrite Hl. apply IH.
Qed.

Lemma res_idx_no_marker (lines : list string) :
  Forall (fun l => marker l = false) lines -> res_idx lines = nil.
Proof.
  intros H. unfold res_idx, enumerate. rewrite (filter_no_marker 0 lines H).
  reflexivity.
Qed.

Lemma res_idx_last (before after : list string) (line : string) :
  marker line = true ->
  Forall (fun l => marker l = false) after ->
  exists earlier,
    res_idx (before ++ line :: after)
    = earlier ++ Z.of_nat (List.length before) :: nil.
Proof.
  intros Hl Ha. unfold res_idx, enumerate.
  rewrite enumerate_from_app. simpl enumerate_from.
  rewrite List.filter_app. simpl List.filter.
  unfold marker in Hl. rewrite Hl.
  rewrite (filter_no_marker _ after Ha).
  rewrite List.map_app. simpl. eexists. reflexivity.
Qed.

Lemma index_last {A : Type} (l : list A) (a : A) :
  index (l ++ a :: nil) (-1) = Ok a.
Proof.
  unfold index. rewrite List.length_app. simpl List.length.
  change (-1 <? 0)%Z with true. cbv iota.
  replace (-1 + Z.of_nat (List.length l + 1))%Z
    with (Z.of_nat (List.length l)) by lia.
  destruct (Z.ltb_spec (Z.of_nat (List.length l)) 0); [lia |].
  rewrite Nat2Z.id, List.nth_error_app2 by lia.
  rewrite Nat.sub_diag. reflexivity.
Qed.

Lemma index_middle {A : Type} (l1 l2 : list A) (a : A) :
  index (l1 ++ a :: l2) (Z.of_nat (List.length l1)) = Ok a.
Proof.
  unfold index.
  destruct (Z.ltb_spec (Z.of_nat (List.length l1)) 0); [lia |].
  destruct (Z.ltb_spec (Z.of_nat (List.length l1)) 0); [lia |].
  rewrite Nat2Z.id, List.nth_error_app2 by lia.
  rewrite Nat.sub_diag. reflexivity.
Qed.


Section Extraction.

Context `{External}.


(** C4. When no line of the output file contains the marker,
    [parse_output] raises [IndexError], and so does the evaluation of the
    objective function that called it: no value is returned in its
    place. The files are left as the solver left them. *)
Theorem parse_output_no_match (radius frac : Q) (coolant fuel : string)
    (matr : option string) (cool_rho : Q) (fs fs1 : fsys) (text : string) :
  let basename := basename_of frac radius in
  let fs2 := mcnp6 ("n= " +:+ basename +:+ " tasks 8") fs1 in
  write_inp frac radius basename coolant fuel matr cool_rho fs = (fs1, Ok tt) ->
  fs2 !! (basename +:+ "o") = Some text ->
  Forall (fun l => contains "final result" l = false) (readlines text) ->
  parse_output basename fs2 = (fs2, Raise IndexError)
  /\ calc_keff_error radius frac coolant fuel matr cool_rho fs
     = (fs2, Raise IndexError).
Proof.
  intros basename fs2 Hw Hfile Hno.
  assert (Hp : parse_output basename fs2 = (fs2, Raise IndexError)).
  { unfold parse_output, read_file. unfold_state. rewrite Hfile.
    rewrite (res_idx_no_marker _ Hno). reflexivity. }
  split; [exact Hp |].
  unfold calc_keff_error. fold basename. unfold_state. rewrite Hw.
  unfold call_mcnp6. unfold_state. fold fs2.
  unfold_state. rewrite Hp. reflexivity.
Qed.

End Extraction.



(** Of two result lines, the second one is read. *)
Example parse_output_two_results :
  snd (@parse_output Instances.converged "deck.i"
         {[ "deck.io" :=
              "     final result     0.98731   0.00077" +:+ newline
              +:+ "     final result     0.99413   0.00052" +:+ newline ]})
  = Ok 0.99413.
Proof. vm_compute. reflexivity. Qed.

(** A last result line without a third token: the lookup raises. *)
Example parse_output_short_line :
  snd (@parse_output Instances.converged "deck.i"
         {[ "deck.io" :=
              "     final result     0.98731   0.00077" +:+ newline
              +:+ " final result" +:+ newline ]})
  = Raise IndexError.
Proof. vm_compute. reflexivity. Qed.

Lemma parse_output_no_match_witness :
  let basename := @basename_of Instances.aborted 0.5 30 in
  let fs1 :=
    fst (@write_inp Instances.aborted 0.5 30 basename "CO2" "UO2" None
           0.23389 Instances.workdir) in
  let fs2 :=
    @mcnp6 Instances.aborted ("n= " +:+ basename +:+ " tasks 8") fs1 in
  @parse_output Instances.aborted basename fs2 = (fs2, Raise IndexError)
  /\ @calc_keff_error Instances.aborted 30 0.5 "CO2" "UO2" None 0.23389
       Instances.workdir
     = (fs2, Raise IndexError).
Proof.
  intros basename fs1 fs2.
  assert (Hw : @write_inp Instances.aborted 0.5 30 basename "CO2" "UO2" None
                 0.23389 Instances.workdir = (fs1, Ok tt))
    by (vm_compute; reflexivity).
  assert (Hf : fs2 !! (basename +:+ "o")
               = Some (" bad trouble in subroutine" +:+ newline))
    by (vm_compute; reflexivity).
  assert (Hn : Forall (fun l => contains "final result" l = false)
                 (readlines (" bad trouble in subroutine" +:+ newline)))
    by (vm_compute; repeat constructor).
  exact (@parse_output_no_match Instances.aborted 30 0.5 "CO2" "UO2" None
           0.23389 Instances.workdir fs1
           (" bad trouble in subroutine" +:+ newline) Hw Hf Hn).
Defined.

(** ** The files of one evaluation *)

Section Artifacts.

Context `{External}.

Lemma parse_output_reads (basename : string) (fs : fsys) :
  fst (parse_output basename fs) = fs.
Proof.
  unfold parse_output, read_file. unfold_state.
  destruct (fs !! (basename +:+ "o")); [| reflexivity]. simpl.
  reflexivity.
Qed.

Lemma os_remove_ok (name : string) (fs fs' : fsys) :
  os_remove name fs = (fs', Ok tt) -> fs' = delete name fs.
Proof.
  unfold os_remove. destruct (fs !! name); intros E; inversion E.
  reflexivity.
Qed.

Lemma os_remove_present (name text : string) (fs : fsys) :
  fs !! name = Some text -> os_remove name fs = (delete name fs, Ok tt).
Proof. intros E. unfold os_remove. rewrite E. reflexivity. Qed.

Lemma append_inj_r (b x y : string) : b +:+ x = b +:+ y -> x = y.
Proof.
  induction b as [|c b IH]; simpl; intros E; [exact E |].
  injection E as E. exact (IH E).
Qed.

Lemma append_suffix_ne (b x : string) : x <> "" -> b +:+ x <> b.
Proof.
  intros Hx E. apply Hx. apply (append_inj_r b).
  rewrite E. clear. induction b as [|c b IH]; [reflexivity |].
  change (String c b = String c (b +:+ "")). f_equal. exact IH.
Qed.

(** C2, as the code has it. (1) When the deck was written, the solver left
    the deck and its three files with the suffixes [r], [s] and [o], and
    the result was extracted, the evaluation returns [|keff - 1|] and has
    removed the four files. (2) Every evaluation that returns has removed
    them. (3) An evaluation in which the extraction of the result raises
    stops there: the exception leaves [calc_keff_error] before the first
    removal, and the files are as the solver left them. *)
Theorem calc_keff_error_artifacts (radius frac : Q) (coolant fuel : string)
    (matr : option string) (cool_rho : Q) (fs : fsys) :
  let basename := basename_of frac radius in
  let gone (fs' : fsys) :=
    fs' !! basename = None
    /\ fs' !! (basename +:+ "r") = None
    /\ fs' !! (basename +:+ "s") = None
    /\ fs' !! (basename +:+ "o") = None in
  (forall fs1 keff,
     write_inp frac radius basename coolant fuel matr cool_rho fs
     = (fs1, Ok tt) ->
     let fs2 := mcnp6 ("n= " +:+ basename +:+ " tasks 8") fs1 in
     is_Some (fs2 !! basename) ->
     is_Some (fs2 !! (basename +:+ "r")) ->
     is_Some (fs2 !! (basename +:+ "s")) ->
     is_Some (fs2 !! (basename +:+ "o")) ->
     snd (parse_output basename fs2) = Ok keff ->
     exists fs',
       calc_keff_error radius frac coolant fuel matr cool_rho fs
       = (fs', Ok (Qabs (keff - 1.0)))
       /\ gone fs')
  /\ (forall fs' err,
        calc_keff_error radius frac coolant fuel matr cool_rho fs
        = (fs', Ok err) ->
        gone fs')
  /\ (forall fs1 e,
        write_inp frac radius basename coolant fuel matr cool_rho fs
        = (fs1, Ok tt) ->
        let fs2 := mcnp6 ("n= " +:+ basename +:+ " tasks 8") fs1 in
        snd (parse_output basename fs2) = Raise e ->
        calc_keff_error radius frac coolant fuel matr cool_rho fs
        = (fs2, Raise e)).
Proof.
  intros basename gone.
  assert (Hgone : forall fs2 : fsys,
    gone (delete basename (delete (basename +:+ "o")
            (delete (basename +:+ "s") (delete (basename +:+ "r") fs2))))).
  { intros fs2. unfold gone.
    repeat split;
      repeat (rewrite lookup_delete; case_decide;
              try reflexivity; try congruence). }
  assert (Hr : basename +:+ "r" <> basename)
    by (apply append_suffix_ne; discriminate).
  assert (Hs : basename +:+ "s" <> basename)
    by (apply append_suffix_ne; discriminate).
  assert (Ho : basename +:+ "o" <> basename)
    by (apply append_suffix_ne; discriminate).
  assert (Hrs : basename +:+ "r" <> basename +:+ "s")
    by (intros E; apply append_inj_r in E; discriminate).
  assert (Hro : basename +:+ "r" <> basename +:+ "o")
    by (intros E; apply append_inj_r in E; discriminate).
  assert (Hso : basename +:+ "s" <> basename +:+ "o")
    by (intros E; apply append_inj_r in E; discriminate).
  split; [| split].
  - intros fs1 keff Hw fs2 [tb Hb] [tr Htr] [ts Hts] [to Hto] Hp.
    eexists. split; [| apply (Hgone fs2)].
    unfold calc_keff_error. fold basename. unfold_state. rewrite Hw.
    unfold call_mcnp6. unfold_state. fold fs2.
    pose proof (parse_output_reads basename fs2) as Hread.
    destruct (parse_output basename fs2) as [fs3 [k|e]];
      simpl in Hp, Hread; [| discriminate].
    injection Hp as ->. subst fs3.
    rewrite (os_remove_present _ tr) by exact Htr.
    rewrite (os_remove_present _ ts)
      by (rewrite lookup_delete_ne by exact Hrs; exact Hts).
    rewrite (os_remove_present _ to)
      by (rewrite !lookup_delete_ne by congruence; exact Hto).
    rewrite (os_remove_present _ tb)
      by (rewrite !lookup_delete_ne by congruence; exact Hb).
    reflexivity.
  - intros fs' err. unfold calc_keff_error. fold basename. unfold_state.
    destruct (write_inp _ _ _ _ _ _ _ fs) as [fs1 [[]|e]]; [| discriminate].
    unfold call_mcnp6. unfold_state.
    set (fs2 := mcnp6 _ fs1).
    pose proof (parse_output_reads basename fs2) as Hread.
    destruct (parse_output basename fs2) as [fs3 [keff|e]]; [| discriminate].
    simpl in Hread. subst fs3.
    destruct (os_remove (basename +:+ "r") fs2) as [fs4 [[]|e]] eqn:E4;
      [| discriminate].
    destruct (os_remove (basename +:+ "s") fs4) as [fs5 [[]|e]] eqn:E5;
      [| discriminate].
    destruct (os_remove (basename +:+ "o") fs5) as [fs6 [[]|e]] eqn:E6;
      [| discriminate].
    destruct (os_remove basename fs6) as [fs7 [[]|e]] eqn:E7;
      [| discriminate].
    intros E. inversion E. subst fs7.
    apply os_remove_ok in E4, E5, E6, E7. subst. apply Hgone.
  - intros fs1 e Hw fs2 Hp.
    unfold calc_keff_error. fold basename. unfold_state. rewrite Hw.
    unfold call_mcnp6. unfold_state. fold fs2.
    pose proof (parse_output_reads basename fs2) as Hread.
    destruct (parse_output basename fs2) as [fs3 [keff|e']];
      simpl in Hp, Hread; [discriminate |].
    congruence.
Qed.

End Artifacts.

Lemma calc_keff_error_artifacts_witness :
  let out :=
    @calc_keff_error Instances.converged 30 0.5 "CO2" "UO2" None 0.23389
      Instances.workdir in
  (exists err, snd out = Ok err /\ err == 0.00587)
  /\ fst out !! "0.5_30.0.i" = None
  /\ fst out !! "0.5_30.0.ir" = None
  /\ fst out !! "0.5_30.0.is" = None
  /\ fst out !! "0.5_30.0.io" = None.
Proof.
  intros out.
  split; [eexists; split; [vm_compute; reflexivity | reflexivity] |].
  apply (proj1 (proj2 (@calc_keff_error_artifacts Instances.converged 30 0.5
                         "CO2" "UO2" None 0.23389 Instances.workdir))
           (fst out) 0.005870).
  vm_compute. reflexivity.
Defined.

(** C2 as stated fails on the failure path: when the solver stops before
    it reports a result, the evaluation raises and all four files of the
    evaluation are still there. *)
Lemma calc_keff_error_leaves_files :
  let out :=
    @calc_keff_error Instances.aborted 30 0.5 "CO2" "UO2" None 0.23389
      Instances.workdir in
  snd out = Raise IndexError
  /\ is_Some (fst out !! "0.5_30.0.i")
  /\ is_Some (fst out !! "0.5_30.0.ir")
  /\ is_Some (fst out !! "0.5_30.0.is")
  /\ is_Some (fst out !! "0.5_30.0.io").
Proof.
  intros out. split; [vm_compute; reflexivity |].
  repeat split; eexists; vm_compute; reflexivity.
Qed.

(** ** The material card *)

(** Isotopes in ascending order whatever the insertion order, one entry
    per line, no line break after the last one. *)
Example card_sorted :
  card ((92238%Z, 0.25) :: (1001%Z, 0.25) :: (8016%Z, 0.5) :: nil)
  = Some ("m1" +:+ newline
          +:+ "     1001 -2.50000e-01" +:+ newline
          +:+ "     8016 -5.00000e-01" +:+ newline
          +:+ "     92238 -2.50000e-01").
Proof. vm_compute. reflexivity. Qed.

(** An entry of value zero inside the card is left out. *)
Example card_skips_zero :
  card ((1001%Z, 0.5) :: (8016%Z, 0) :: (92238%Z, 0.5) :: nil)
  = Some ("m1" +:+ newline
          +:+ "     1001 -5.00000e-01" +:+ newline
          +:+ "     92238 -5.00000e-01").
Proof. vm_compute. reflexivity. Qed.

(** C7, at the input where the code departs from it. The test
    [idx < len(homog_comp.keys()) - 1] counts the entries that are left
    out: when the isotope with the largest identifier has the value zero,
    the entry before it is the last one written and is followed by a line
    break, against the comment [no endline character for last isotope]. *)
Theorem write_mat_string_trailing_newline :
  card ((8016%Z, 1) :: (92238%Z, 0) :: nil)
  = Some ("m1" +:+ newline +:+ "     8016 -1.00000e+00" +:+ newline).
Proof. vm_compute. reflexivity. Qed.

(** The same happens on the composition that [homog_core] returns for
    fully enriched fuel, where the isotope 92238 has the mass fraction 0. *)
Example card_fully_enriched :
  forall comp,
    snd (homog_core "UO2" "CO2" None 1 0.5 0.079082 0.031
           (init 30 30 0.5 15))
    = Ok comp ->
    card comp
    = Some ("m1" +:+ newline
            +:+ "     6000 -1.95331e-03" +:+ newline
            +:+ "     8016 -1.56156e-01" +:+ newline
            +:+ "     92235 -8.41891e-01" +:+ newline).
Proof.
  intros comp H. vm_compute in H. injection H as <-. vm_compute. reflexivity.
Qed.

(** *** The card as a function of the composition *)

Lemma string_app_assoc (a b c : string) : (a +:+ b) +:+ c = a +:+ (b +:+ c).
Proof.
  induction a as [|x a IH]; [reflexivity |].
  change (String x ((a +:+ b) +:+ c) = String x (a +:+ (b +:+ c))).
  f_equal. exact IH.
Qed.

Lemma string_app_nil_r (a : string) : a +:+ "" = a.
Proof.
  induction a as [|x a IH]; [reflexivity |].
  change (String x (a +:+ "") = String x a). f_equal. exact IH.
Qed.

Lemma dict_get_key (k : Z) (d : dict) :
  In k (dict_keys d) -> exists v, dict_get k d = Some v.
Proof.
  induction d as [|[k' v'] d IH]; simpl; [contradiction |].
  intros [E | Hin].
  - subst k'. rewrite Z.eqb_refl. eauto.
  - destruct (Z.eqb k k'); eauto.
Qed.

Lemma set_fuel_string_id (self : HomogeneousInput) (acc : string) :
  fuel_string self = Some acc -> set_fuel_string acc self = self.
Proof. destruct self; simpl; intros ->; reflexivity. Qed.

Lemma set_fuel_string_twice (self : HomogeneousInput) (a b : string) :
  set_fuel_string a (set_fuel_string b self) = set_fuel_string a self.
Proof. reflexivity. Qed.

Lemma mat_entry_step (homog_comp : dict) (n idx : nat) (k : Z) (v : Q)
    (self : HomogeneousInput) (acc : string) :
  dict_get k homog_comp = Some v ->
  fuel_string self = Some acc ->
  mat_entry homog_comp n (idx, k) self
  = (set_fuel_string (acc +:+ piece homog_comp n (idx, k)) self, Ok tt).
Proof.
  intros Hv Hacc. unfold mat_entry, piece, iadd_fuel_string. unfold_state.
  rewrite Hv. cbn [getitem]. fold (entry_text k v).
  destruct (Qeq_bool (Qabs v) 0).
  - rewrite string_app_nil_r, (set_fuel_string_id self acc Hacc). reflexivity.
  - rewrite Hacc. cbn [getattr].
    destruct (Z.of_nat idx <? Z.of_nat n - 1)%Z.
    + cbn [fuel_string set_fuel_string getattr].
      rewrite string_app_assoc. reflexivity.
    + rewrite string_app_nil_r. reflexivity.
Qed.

Lemma mat_loop (homog_comp : dict) (n : nat) (items : list (nat * Z))
    (self : HomogeneousInput) (acc : string) :
  (forall item, In item items -> In (snd item) (dict_keys homog_comp)) ->
  fuel_string self = Some acc ->
  st_for items (mat_entry homog_comp n) self
  = (set_fuel_string
       (acc +:+ concat_pieces (List.map (piece homog_comp n) items)) self,
     Ok tt).
Proof.
  revert self acc.
  induction items as [|[idx k] items IH]; intros self acc Hin Hacc.
  - cbn [st_for List.map concat_pieces]. unfold st_ret.
    rewrite string_app_nil_r, (set_fuel_string_id self acc Hacc). reflexivity.
  - assert (Hrest : forall item, In item items ->
                      In (snd item) (dict_keys homog_comp))
      by (intros item Hi; apply Hin; right; exact Hi).
    destruct (dict_get_key k homog_comp (Hin (idx, k) (or_introl eq_refl)))
      as [v Hv].
    cbn [st_for List.map concat_pieces]. unfold st_bind.
    rewrite (mat_entry_step homog_comp n idx k v self acc Hv Hacc).
    rewrite (IH (set_fuel_string (acc +:+ piece homog_comp n (idx, k)) self)
               (acc +:+ piece homog_comp n (idx, k)) Hrest eq_refl).
    rewrite set_fuel_string_twice, string_app_assoc. reflexivity.
Qed.

(** The card is the header followed by the pieces of the isotopes in
    sorted order; the loop never raises. *)
Lemma write_mat_string_card (homog_comp : dict) (self : HomogeneousInput) :
  write_mat_string homog_comp self
  = (set_fuel_string
       (("m1" +:+ newline)
        +:+ concat_pieces
              (List.map (piece homog_comp (List.length (dict_keys homog_comp)))
                 (enumerate (sorted (dict_keys homog_comp)))))
       self,
     Ok tt).
Proof.
  unfold write_mat_string. unfold_state.
  rewrite (mat_loop homog_comp _ _
             (set_fuel_string ("m1" +:+ newline) self) ("m1" +:+ newline)).
  - rewrite set_fuel_string_twice. reflexivity.
  - intros [idx k] Hin. cbn [snd].
    assert (Hk : In k (sorted (dict_keys homog_comp))).
    { clear -Hin. unfold enumerate in Hin.
      generalize dependent 0%nat.
      induction (sorted (dict_keys homog_comp)) as [|x l IH];
        simpl; intros i Hin; [contradiction |].
      destruct Hin as [E | Hin]; [injection E as _ ->; left; reflexivity |].
      right. exact (IH _ Hin). }
    apply list_elem_of_In. apply list_elem_of_In in Hk.
    unfold sorted in Hk. rewrite merge_sort_Permutation in Hk. exact Hk.
  - reflexivity.
Qed.

(** The identifiers are written in ascending order, strictly so when the
    keys are distinct, as those of a Python dict are. *)
Lemma sorted_ascending (keys : list Z) :
  StronglySorted Z.le (sorted keys).
Proof. unfold sorted. apply StronglySorted_merge_sort; apply _. Qed.

Lemma sorted_strictly_ascending (keys : list Z) :
  NoDup keys -> StronglySorted Z.lt (sorted keys).
Proof.
  intros Hnd.
  assert (Hnd' : NoDup (sorted keys))
    by (unfold sorted; rewrite merge_sort_Permutation; exact Hnd).
  pose proof (sorted_ascending keys) as Hs.
  induction Hs as [|k l Hs IH Hall]; constructor.
  - apply IH. apply NoDup_cons in Hnd'. tauto.
  - apply NoDup_cons in Hnd'. destruct Hnd' as [Hk _].
    apply Forall_forall. intros x Hx.
    rewrite Forall_forall in Hall. specialize (Hall x Hx).
    assert (x <> k) by (intros ->; contradiction). lia.
Qed.

(** The card does not depend on the order of insertion. *)
Lemma card_insertion_order (d1 d2 : dict) :
  d1 ≡ₚ d2 -> NoDup (dict_keys d1) -> card d1 = card d2.
Proof.
  intros Hp Hnd. unfold card. rewrite !write_mat_string_card.
  cbn [fst fuel_string set_fuel_string]. do 2 f_equal.
  assert (Hkeys : dict_keys d1 ≡ₚ dict_keys d2)
    by (unfold dict_keys; rewrite Hp; reflexivity).
  assert (Hs : sorted (dict_keys d1) = sorted (dict_keys d2)).
  { apply (Sorted_unique Z.le).
    - apply Sorted_merge_sort. apply _.
    - apply Sorted_merge_sort. apply _.
    - unfold sorted. rewrite !merge_sort_Permutation. exact Hkeys. }
  rewrite Hs, (Permutation_length Hkeys). f_equal.
  apply List.map_ext. intros [idx k]. unfold piece.
  assert (Hget : dict_get k d1 = dict_get k d2); [| rewrite Hget; reflexivity].
  clear -Hp Hnd. induction Hp as [| [k' v'] l1 l2 Hp IH
                                  | [k1 v1] [k2 v2] l | l1 l2 l3 H1 IH1 H2 IH2].
  - reflexivity.
  - simpl. destruct (Z.eqb k k'); [reflexivity |].
    apply IH. simpl in Hnd. apply NoDup_cons in Hnd. tauto.
  - simpl. destruct (Z.eqb_spec k k2), (Z.eqb_spec k k1); try reflexivity.
    exfalso. simpl in Hnd. apply NoDup_cons in Hnd. destruct Hnd as [Hnd _].
    apply Hnd. subst. left.
  - rewrite IH1 by exact Hnd. apply IH2.
    unfold dict_keys in *. rewrite <- H1. exact Hnd.
Qed.

(** * Further properties of the code *)

(** ** Merging compositions *)

Lemma dict_get_set (k k' : Z) (x : Q) (d : dict) :
  dict_get k (dict_set k' x d)
  = if Z.eqb k k' then Some x else dict_get k d.
Proof.
  induction d as [|[k0 v0] d IH]; simpl.
  - destruct (Z.eqb k k'); reflexivity.
  - destruct (Z.eqb_spec k' k0) as [-> | Hne]; simpl.
    + destruct (Z.eqb k k0); reflexivity.
    + rewrite IH. destruct (Z.eqb_spec k k0) as [-> | Hne'].
      * destruct (Z.eqb_spec k0 k'); [congruence | reflexivity].
      * reflexivity.
Qed.

Lemma dict_get_not_key (k : Z) (d : dict) :
  ~ In k (dict_keys d) -> dict_get k d = None.
Proof.
  induction d as [|[k0 v0] d IH]; simpl; intros Hn; [reflexivity |].
  destruct (Z.eqb_spec k k0) as [-> | Hne]; [tauto |].
  apply IH. tauto.
Qed.

Lemma dict_get_merge_step (k : Z) (compA : dict) (item : Z * Q) :
  dict_get k (merge_step compA item)
  = if Z.eqb k (fst item)
    then add_opt (dict_get k compA) (Some (snd item))
    else dict_get k compA.
Proof.
  destruct item as [k' v]. unfold merge_step. simpl.
  destruct (dict_get k' compA) as [a|] eqn:E; rewrite dict_get_set;
    destruct (Z.eqb_spec k k') as [-> | Hne]; try reflexivity;
    rewrite E; reflexivity.
Qed.

Lemma dict_get_merge (compA compB : dict) (k : Z) :
  NoDup (dict_keys compB) ->
  dict_get k (merge_comps compA compB)
  = add_opt (dict_get k compA) (dict_get k compB).
Proof.
  unfold merge_comps. revert compA.
  induction compB as [|[k' v] compB IH]; intros compA Hnd.
  - simpl. destruct (dict_get k compA); reflexivity.
  - simpl in Hnd. apply NoDup_cons in Hnd. destruct Hnd as [Hk Hnd].
    cbn [fold_left]. rewrite (IH _ Hnd), dict_get_merge_step.
    cbn [fst snd dict_get].
    destruct (Z.eqb_spec k k') as [-> | Hne].
    + rewrite (dict_get_not_key k' compB)
        by (intros Hin; apply Hk; apply list_elem_of_In; exact Hin).
      destruct (dict_get k' compA); reflexivity.
    + reflexivity.
Qed.

(** X1. The merged composition holds, for every isotope, the sum of the
    mass fractions that the two compositions give it: an isotope of both
    is added up, an isotope of one keeps its value, and no other isotope
    appears. *)
Theorem merge_comps_lookup (compA compB : dict) (k : Z) :
  NoDup (dict_keys compB) ->
  dict_get k (merge_comps compA compB)
  = add_opt (dict_get k compA) (dict_get k compB).
Proof. apply dict_get_merge. Qed.

Lemma merge_comps_lookup_witness :
  dict_get 8016 (merge_comps ((8016%Z, 0.25) :: (92235%Z, 0.5) :: nil)
                             ((6000%Z, 0.125) :: (8016%Z, 0.125) :: nil))
  = add_opt (Some 0.25) (Some 0.125).
Proof.
  apply (merge_comps_lookup ((8016%Z, 0.25) :: (92235%Z, 0.5) :: nil)
           ((6000%Z, 0.125) :: (8016%Z, 0.125) :: nil) 8016).
  apply NoDup_cons. split; [intros H; inversion H as [|? ? ? H']; inversion H' |].
  apply NoDup_cons. split; [intros H; inversion H | apply NoDup_nil; exact I].
Defined.

Lemma dict_keys_set (k : Z) (x : Q) (d : dict) :
  dict_keys (dict_set k x d)
  = if dict_mem k d then dict_keys d else dict_keys d ++ k :: nil.
Proof.
  unfold dict_mem. induction d as [|[k0 v0] d IH]; simpl; [reflexivity |].
  destruct (Z.eqb_spec k k0) as [-> | Hne]; simpl; [reflexivity |].
  unfold dict_keys in *. rewrite IH.
  destruct (dict_get k d); reflexivity.
Qed.

Lemma dict_keys_merge_step (compA : dict) (item : Z * Q) :
  dict_keys (merge_step compA item)
  = if dict_mem (fst item) compA then dict_keys compA
    else dict_keys compA ++ fst item :: nil.
Proof.
  destruct item as [k v]. unfold merge_step. cbn [fst].
  destruct (dict_get k compA) as [a|] eqn:E; rewrite dict_keys_set;
    reflexivity.
Qed.

Lemma dict_mem_key (k : Z) (d : dict) :
  dict_mem k d = true <-> In k (dict_keys d).
Proof.
  unfold dict_mem. split.
  - intros H. destruct (dict_get k d) eqn:E; [| discriminate].
    clear H. induction d as [|[k0 v0] d IH]; simpl in *; [discriminate |].
    destruct (Z.eqb_spec k k0); [left; congruence | right; auto].
  - intros H. destruct (dict_get_key k d H) as [v ->]. reflexivity.
Qed.

Lemma dict_keys_merge (compA compB : dict) :
  NoDup (dict_keys compB) ->
  dict_keys (merge_comps compA compB)
  = dict_keys compA
    ++ List.filter (fun k => negb (dict_mem k compA)) (dict_keys compB)
  /\ (NoDup (dict_keys compA) -> NoDup (dict_keys (merge_comps compA compB))).
Proof.
  intros Hnd.
  assert (Hkeys : dict_keys (merge_comps compA compB)
    = dict_keys compA
      ++ List.filter (fun k => negb (dict_mem k compA)) (dict_keys compB)).
  { unfold merge_comps. revert compA.
    induction compB as [|[k' v] compB IH]; intros compA.
    - simpl. rewrite app_nil_r. reflexivity.
    - simpl in Hnd. apply NoDup_cons in Hnd. destruct Hnd as [Hk Hnd].
      cbn [fold_left]. rewrite (IH Hnd), dict_keys_merge_step. cbn [fst].
      assert (Hf : List.filter
                     (fun k => negb (dict_mem k (merge_step compA (k', v))))
                     (dict_keys compB)
                   = List.filter (fun k => negb (dict_mem k compA))
                       (dict_keys compB)).
      { apply List.filter_ext_in. intros k Hin. f_equal. unfold dict_mem.
        rewrite dict_get_merge_step. cbn [fst].
        destruct (Z.eqb_spec k k') as [-> | Hne]; [| reflexivity].
        exfalso. apply Hk. apply list_elem_of_In. exact Hin. }
      rewrite Hf. simpl.
      destruct (dict_mem k' compA); simpl; [reflexivity |].
      rewrite <- app_assoc. reflexivity. }
  split; [exact Hkeys |].
  intros HA. rewrite Hkeys. apply NoDup_app. split; [exact HA |]. split.
  - intros k Hk Hin. apply list_elem_of_In, List.filter_In in Hin.
    destruct Hin as [_ Hm]. apply list_elem_of_In, dict_mem_key in Hk.
    rewrite Hk in Hm. discriminate.
  - apply NoDup_ListNoDup, List.NoDup_filter, NoDup_ListNoDup. exact Hnd.
Qed.

(** X2. The merged composition keeps the isotopes of the first
    composition in their order and appends the new isotopes of the second
    in theirs; distinct keys stay distinct. *)
Theorem merge_comps_keys (compA compB : dict) :
  NoDup (dict_keys compB) ->
  dict_keys (merge_comps compA compB)
  = dict_keys compA
    ++ List.filter (fun k => negb (dict_mem k compA)) (dict_keys compB)
  /\ (NoDup (dict_keys compA) -> NoDup (dict_keys (merge_comps compA compB))).
Proof. apply dict_keys_merge. Qed.

Lemma merge_comps_keys_witness :
  dict_keys (merge_comps ((8016%Z, 0.25) :: (92235%Z, 0.5) :: nil)
                         ((6000%Z, 0.125) :: (8016%Z, 0.125) :: nil))
  = (8016 :: 92235 :: 6000 :: nil)%Z.
Proof.
  refine (proj1 (merge_comps_keys ((8016%Z, 0.25) :: (92235%Z, 0.5) :: nil)
                   ((6000%Z, 0.125) :: (8016%Z, 0.125) :: nil) _)).
  apply NoDup_cons. split; [intros H; inversion H as [|? ? ? H']; inversion H' |].
  apply NoDup_cons. split; [intros H; inversion H | apply NoDup_nil; exact I].
Defined.


(** ** Enrichment of both fuels *)

Lemma molar_den_bounds (e : Q) :
  0 <= e -> e <= 1 -> / mmU28 <= molar_den e /\ molar_den e <= / mmU25.
Proof.
  intros H0 H1. unfold molar_den, mmU25, mmU28, Qdiv.
  assert (E5 : / 235.04 == 100 # 23504) by reflexivity.
  assert (E8 : / 238.05 == 100 # 23805) by reflexivity.
  rewrite E5, E8. lra.
Qed.

Lemma molar_den_pos (e : Q) : 0 <= e -> e <= 1 -> 0 < molar_den e.
Proof.
  intros H0 H1. destruct (molar_den_bounds e H0 H1) as [H _].
  assert (E8 : / mmU28 == 100 # 23805) by reflexivity.
  rewrite E8 in H. lra.
Qed.

Lemma molar_den_nonzero (e : Q) : 0 <= e -> e <= 1 -> ~ molar_den e == 0.
Proof.
  intros H0 H1 E. pose proof (molar_den_pos e H0 H1) as H.
  rewrite E in H. lra.
Qed.

Lemma enrich_fuel_returns (e : Q) (fuel : string) :
  fuel = "UO2" \/ fuel = "UN" -> 0 <= e -> e <= 1 ->
  exists comp mm, enrich_fuel e fuel = Ok (comp, mm)
                  /\ comp <> nil /\ dict_sum comp == 1.
Proof.
  intros Hfuel H0 H1.
  exact (proj1 (enrich_fuel_cases e fuel Hfuel) (molar_den_nonzero e H0 H1)).
Qed.





(** ** Homogenization: the object, the errors and the composition *)

Lemma enrich_fuel_ok (e : Q) (fuel : string) (fuel_comp : dict) (mm : Q) :
  enrich_fuel e fuel = Ok (fuel_comp, mm) ->
  (fuel = "UN" \/ fuel = "UO2") /\ fuel_comp <> nil.
Proof.
  intros H. destruct (mats fuel) as [d|] eqn:E.
  - destruct (mats_keys fuel d E) as [->|[->|[->|[->| ->]]]];
      try discriminate H.
    + rewrite enrich_fuel_UO2_any in H.
      destruct (truediv 1 (molar_den e)); [| discriminate H].
      injection H as <- _. split; [right; reflexivity | discriminate].
    + rewrite enrich_fuel_UN_any in H.
      destruct (truediv 1 (molar_den e)); [| discriminate H].
      injection H as <- _. split; [left; reflexivity | discriminate].
  - unfold enrich_fuel in H. rewrite E in H. discriminate H.
Qed.

Section HomogCoreState.

Variables (fuel cool : string) (matr : option string).
Variables (enrich r_cool rho_cool c : Q) (self : HomogeneousInput).
Variable fd : Q.
Hypothesis fuel_density : rhos fuel = Some fd.
Hypothesis matrix_density :
  forall m, matr_given matr = Some m -> is_Some (rhos m).

(** The object after [homog_core]: [rho] is assigned first, [MM_fuel]
    once [enrich_fuel] has returned. *)
Lemma homog_core_state :
  fst (homog_core fuel cool matr enrich r_cool rho_cool c self)
  = let rho_val :=
      Spec.smeared_density (vfrac_fuel self) fd rho_cool
        (matr_given matr ≫= rhos) in
    match enrich_fuel enrich fuel with
    | Ok (_, mm) => set_MM_fuel mm (set_rho rho_val self)
    | Raise _ => set_rho rho_val self
    end.
Proof.
  unfold homog_core. unfold_state.
  destruct (matr_given matr) as [m|] eqn:Em; simpl.
  - destruct (matrix_density m eq_refl) as [d Hd]. rewrite Hd, fuel_density.
    simpl.
    destruct (enrich_fuel enrich fuel) as [[fuel_comp mm]|e]; reflexivity.
  - rewrite fuel_density. simpl.
    destruct (enrich_fuel enrich fuel) as [[fuel_comp mm]|e]; reflexivity.
Qed.

End HomogCoreState.

Lemma homog_core_no_density (fuel cool : string) (matr : option string)
    (enrich r_cool rho_cool c : Q) (self : HomogeneousInput) :
  (exists m, matr_given matr = Some m /\ rhos m = None) \/ rhos fuel = None ->
  homog_core fuel cool matr enrich r_cool rho_cool c self
  = (self, Raise KeyError).
Proof.
  intros H. unfold homog_core. unfold_state.
  destruct (matr_given matr) as [m|] eqn:Em; simpl.
  - destruct (rhos m) as [d|] eqn:Ed; simpl.
    + destruct H as [(m' & Hm & Hr) | Hf].
      * injection Hm as <-. congruence.
      * rewrite Hf. reflexivity.
    + reflexivity.
  - destruct H as [(m' & Hm & Hr) | Hf]; [discriminate |].
    rewrite Hf. reflexivity.
Qed.

(** X6. A density that is not in the table stops [homog_core] before it
    assigns anything: when the matrix given, or else the fuel, has no
    entry in [rhos], the call raises [KeyError] and the object is as it
    was. *)
Theorem homog_core_unknown_density (fuel cool : string) (matr : option string)
    (enrich r_cool rho_cool c : Q) (self : HomogeneousInput) :
  (exists m, matr_given matr = Some m /\ rhos m = None) \/ rhos fuel = None ->
  homog_core fuel cool matr enrich r_cool rho_cool c self
  = (self, Raise KeyError).
Proof. apply homog_core_no_density. Qed.

Lemma homog_core_unknown_density_witness :
  homog_core "UO2" "CO2" (Some "CO2") 0.93 0.5 0.079082 0.031
    (init 30 30 0.5 15)
  = (init 30 30 0.5 15, Raise KeyError)
  /\ homog_core "H2O" "CO2" None 0.93 0.5 0.079082 0.031 (init 30 30 0.5 15)
     = (init 30 30 0.5 15, Raise KeyError).
Proof.
  split.
  - apply homog_core_unknown_density. left. exists "CO2".
    split; reflexivity.
  - apply homog_core_unknown_density. right. reflexivity.
Defined.

Lemma homog_core_ok (fuel cool : string) (matr : option string)
    (enrich r_cool rho_cool c : Q) (self : HomogeneousInput) (comp : dict) :
  snd (homog_core fuel cool matr enrich r_cool rho_cool c self) = Ok comp ->
  let self' := fst (homog_core fuel cool matr enrich r_cool rho_cool c self) in
  (fuel = "UN" \/ fuel = "UO2")
  /\ is_Some (mats cool)
  /\ exists v fuel_comp mm,
       rho self' = Some v /\ ~ v == 0
       /\ enrich_fuel enrich fuel = Ok (fuel_comp, mm)
       /\ MM_fuel self' = Some mm.
Proof.
  intros H.
  destruct (rhos fuel) as [fd|] eqn:Efd.
  2:{ rewrite homog_core_no_density in H by (right; exact Efd).
      discriminate H. }
  assert (Hmd : forall m, matr_given matr = Some m -> is_Some (rhos m)).
  { intros m Hm. destruct (rhos m) as [d|] eqn:Ed; [eexists; reflexivity |].
    rewrite homog_core_no_density in H
      by (left; exists m; split; assumption).
    discriminate H. }
  cbv zeta.
  rewrite (homog_core_state fuel cool matr enrich r_cool rho_cool c self
             fd Efd Hmd).
  rewrite (homog_core_result fuel cool matr enrich r_cool rho_cool c self
             fd Efd Hmd) in H.
  cbv zeta.
  destruct (enrich_fuel enrich fuel) as [[fuel_comp mm]|e] eqn:Ef;
    [| discriminate H].
  destruct (enrich_fuel_ok _ _ _ _ Ef) as [Hfuel Hne].
  cbn [mbind result_bind Py.bind] in H.
  set (rho_val := Spec.smeared_density _ _ _ _) in *.
  split; [exact Hfuel |].
  destruct (Qeq_dec rho_val 0) as [Hz | Hnz].
  { rewrite (normed_zero _ _ fuel_comp Hz Hne) in H. discriminate H. }
  split.
  - destruct (mats cool) as [cc|]; [eexists; reflexivity |].
    destruct (normed _ rho_val fuel_comp); discriminate H.
  - exists rho_val, fuel_comp, mm. repeat split; assumption.
Qed.

(** X7. A call of [homog_core] that returns has a fuel ['UN'] or ['UO2']
    and a coolant of the table, and has assigned to the object a smeared
    density [rho] that is not zero and the molar mass [MM_fuel] that
    [enrich_fuel] returned. *)
Theorem homog_core_success (fuel cool : string) (matr : option string)
    (enrich r_cool rho_cool c : Q) (self : HomogeneousInput) (comp : dict) :
  snd (homog_core fuel cool matr enrich r_cool rho_cool c self) = Ok comp ->
  let self' := fst (homog_core fuel cool matr enrich r_cool rho_cool c self) in
  (fuel = "UN" \/ fuel = "UO2")
  /\ is_Some (mats cool)
  /\ exists v fuel_comp mm,
       rho self' = Some v /\ ~ v == 0
       /\ enrich_fuel enrich fuel = Ok (fuel_comp, mm)
       /\ MM_fuel self' = Some mm.
Proof. apply homog_core_ok. Qed.

Lemma homog_core_success_witness :
  let out := homog_core "UN" "CO2" (Some "W") 0.93 0.5 0.079082 0.031
               (init 30 30 0.9 15) in
  ("UN" = "UN" \/ "UN" = "UO2")
  /\ is_Some (mats "CO2")
  /\ exists v fuel_comp mm,
       rho (fst out) = Some v /\ ~ v == 0
       /\ enrich_fuel 0.93 "UN" = Ok (fuel_comp, mm)
       /\ MM_fuel (fst out) = Some mm.
Proof.
  intros out.
  assert (H : exists comp, snd out = Ok comp)
    by (eexists; vm_compute; reflexivity).
  destruct H as [comp H].
  exact (homog_core_success "UN" "CO2" (Some "W") 0.93 0.5 0.079082 0.031
           (init 30 30 0.9 15) comp H).
Defined.

(** X8. A coolant that is not in the table is found late: for a fuel
    ['UO2'] or ['UN'] whose fractions could be normalized, [homog_core]
    raises [KeyError], and the object keeps the [rho] and the [MM_fuel]
    that were assigned before the lookup. *)
Theorem homog_core_unknown_coolant (fuel cool : string) (matr : option string)
    (enrich r_cool rho_cool c : Q) (self : HomogeneousInput) (fd : Q) :
  fuel = "UO2" \/ fuel = "UN" ->
  rhos fuel = Some fd ->
  (forall m, matr_given matr = Some m -> is_Some (rhos m)) ->
  mats cool = None ->
  0 <= enrich -> enrich <= 1 ->
  let rho_val :=
    Spec.smeared_density (vfrac_fuel self) fd rho_cool
      (matr_given matr ≫= rhos) in
  ~ rho_val == 0 ->
  let out := homog_core fuel cool matr enrich r_cool rho_cool c self in
  snd out = Raise KeyError
  /\ rho (fst out) = Some rho_val
  /\ exists mm, MM_fuel (fst out) = Some mm.
Proof.
  intros Hfuel Hfd Hmd Hcool H0 H1 rho_val Hrho out. subst out.
  rewrite (homog_core_state fuel cool matr enrich r_cool rho_cool c self
             fd Hfd Hmd).
  rewrite (homog_core_result fuel cool matr enrich r_cool rho_cool c self
             fd Hfd Hmd).
  cbv zeta. fold rho_val.
  destruct (enrich_fuel_returns enrich fuel Hfuel H0 H1)
    as (fuel_comp & mm & -> & _ & _).
  cbn [mbind result_bind Py.bind].
  match goal with
  | |- context [normed ?mf rho_val fuel_comp] =>
      destruct (normed_ok mf rho_val fuel_comp Hrho) as (nf & -> & _)
  end.
  cbn [mbind result_bind Py.bind]. rewrite Hcool.
  split; [reflexivity |]. split; [reflexivity |]. eexists. reflexivity.
Qed.

Lemma homog_core_unknown_coolant_witness :
  let out := homog_core "UO2" "He" None 0.93 0.5 0.079082 0.031
               (init 30 30 0.5 15) in
  snd out = Raise KeyError
  /\ rho (fst out) = Some (Spec.smeared_density 0.5 10.97 0.079082 None)
  /\ exists mm, MM_fuel (fst out) = Some mm.
Proof.
  refine (homog_core_unknown_coolant "UO2" "He" None 0.93 0.5 0.079082 0.031
            (init 30 30 0.5 15) 10.97 _ _ _ _ _ _ _).
  - left; reflexivity.
  - reflexivity.
  - intros m Hm; discriminate Hm.
  - reflexivity.
  - discriminate.
  - discriminate.
  - intros E. vm_compute in E. discriminate E.
Defined.

Lemma normed_scaled (mfrac rho : Q) (d : dict) :
  ~ rho == 0 -> normed mfrac rho d = Ok (scaled mfrac rho d).
Proof.
  intros Hr. unfold normed, scaled.
  induction d as [|[k v] d IH]; simpl; [reflexivity |].
  rewrite (truediv_ok _ _ Hr). simpl. rewrite IH. reflexivity.
Qed.

Lemma dict_keys_scaled (mfrac rho : Q) (d : dict) :
  dict_keys (scaled mfrac rho d) = dict_keys d.
Proof.
  unfold dict_keys, scaled. rewrite List.map_map. reflexivity.
Qed.


Lemma mats_NoDup (m : string) (d : dict) :
  mats m = Some d -> NoDup (dict_keys d).
Proof.
  intros E.
  destruct (mats_keys m d E) as [->|[->|[->|[->| ->]]]];
    injection E as <-; cbn;
    repeat (apply NoDup_cons; split; [rewrite list_elem_of_In; cbn; lia |]);
    apply NoDup_nil; exact I.
Qed.

Lemma mats_nonneg (m : string) (d : dict) :
  mats m = Some d -> Forall (fun kv => 0 <= snd kv) d.
Proof.
  intros E.
  destruct (mats_keys m d E) as [->|[->|[->|[->| ->]]]];
    injection E as <-; repeat constructor; discriminate.
Qed.

Lemma rhos_pos (m : string) (d : Q) : rhos m = Some d -> 0 < d.
Proof.
  unfold rhos.
  repeat match goal with
  | |- context [String.eqb m ?k] => destruct (String.eqb m k)
  end; intros E; try discriminate E; injection E as <-; reflexivity.
Qed.

Lemma scaled_nonneg (mfrac rho : Q) (d : dict) :
  0 <= mfrac -> 0 < rho ->
  Forall (fun kv => 0 <= snd kv) d ->
  Forall (fun kv => 0 <= snd kv) (scaled mfrac rho d).
Proof.
  intros Hm Hr H. unfold scaled. induction H as [|[k v] d Hv _ IH]; simpl.
  - constructor.
  - constructor; [| exact IH]. simpl in *.
    apply Qle_shift_div_l; [exact Hr |]. rewrite Qmult_0_l.
    apply Qmult_le_0_compat; assumption.
Qed.

Lemma dict_set_nonneg (k : Z) (x : Q) (d : dict) :
  0 <= x -> Forall (fun kv => 0 <= snd kv) d ->
  Forall (fun kv => 0 <= snd kv) (dict_set k x d).
Proof.
  intros Hx H. induction H as [|[k' v'] d Hv Hd IH]; simpl.
  - repeat constructor. exact Hx.
  - destruct (Z.eqb k k'); constructor; assumption.
Qed.

Lemma dict_get_nonneg (k : Z) (a : Q) (d : dict) :
  Forall (fun kv => 0 <= snd kv) d -> dict_get k d = Some a -> 0 <= a.
Proof.
  intros H. induction H as [|[k' v'] d Hv Hd IH]; simpl; [discriminate |].
  destruct (Z.eqb k k'); [intros E; injection E as <-; exact Hv | exact IH].
Qed.

Lemma merge_comps_nonneg (compA compB : dict) :
  Forall (fun kv => 0 <= snd kv) compA ->
  Forall (fun kv => 0 <= snd kv) compB ->
  Forall (fun kv => 0 <= snd kv) (merge_comps compA compB).
Proof.
  unfold merge_comps. intros HA HB. revert compA HA.
  induction HB as [|[k v] compB Hv _ IH]; intros compA HA; [exact HA |].
  cbn [fold_left]. apply IH. unfold merge_step. simpl in Hv.
  destruct (dict_get k compA) as [a|] eqn:E.
  - apply dict_set_nonneg; [| exact HA].
    pose proof (dict_get_nonneg k a compA HA E). lra.
  - apply dict_set_nonneg; assumption.
Qed.

Lemma enrich_fuel_nonneg (e : Q) (fuel : string) (comp : dict) (mm : Q) :
  0 <= e -> e <= 1 -> enrich_fuel e fuel = Ok (comp, mm) ->
  Forall (fun kv => 0 <= snd kv) comp /\ NoDup (dict_keys comp).
Proof.
  intros H0 H1 E.
  destruct (enrich_fuel_ok _ _ _ _ E) as [[-> | ->] _].
  - rewrite enrich_fuel_UN_any in E.
    destruct (truediv 1 (molar_den e)); [| discriminate E].
    injection E as <- _. split.
    + repeat constructor; simpl.
      * apply Qmult_le_0_compat; [discriminate | exact H0].
      * apply Qmult_le_0_compat; [discriminate | lra].
      * discriminate.
    + cbn. repeat (apply NoDup_cons; split;
                   [rewrite list_elem_of_In; cbn; lia |]).
      apply NoDup_nil; exact I.
  - rewrite enrich_fuel_UO2_any in E.
    destruct (truediv 1 (molar_den e)); [| discriminate E].
    injection E as <- _. split.
    + repeat constructor; simpl.
      * discriminate.
      * apply Qmult_le_0_compat; [discriminate | exact H0].
      * apply Qmult_le_0_compat; [discriminate | lra].
    + cbn. repeat (apply NoDup_cons; split;
                   [rewrite list_elem_of_In; cbn; lia |]).
      apply NoDup_nil; exact I.
Qed.

Section HomogCoreScaled.

Variables (fuel cool : string) (matr : option string).
Variables (enrich r_cool rho_cool c : Q) (self : HomogeneousInput).
Variables (fd : Q) (fuel_comp cool_comp : dict) (mm : Q).
Hypothesis fuel_density : rhos fuel = Some fd.
Hypothesis matrix_known :
  forall m, matr_given matr = Some m -> is_Some (rhos m) /\ is_Some (mats m).
Hypothesis fuel_enriched : enrich_fuel enrich fuel = Ok (fuel_comp, mm).
Hypothesis coolant_known : mats cool = Some cool_comp.

Let vf : Q := vfrac_fuel self.
Let matrixDensity : option Q := matr_given matr ≫= rhos.
Let split : Q := Spec.matrixSplit (Spec.is_present matrixDensity).
Let rho_val : Q := Spec.smeared_density vf fd rho_cool matrixDensity.

Hypothesis rho_nonzero : ~ rho_val == 0.

(** The composition that [homog_core] returns, as the merge of the
    scaled templates. *)
Lemma homog_core_scaled :
  snd (homog_core fuel cool matr enrich r_cool rho_cool c self)
  = Ok (merge_comps
          (merge_comps
             (merge_comps nil
                (scaled (Spec.fuel_partial vf fd split) rho_val fuel_comp))
             (scaled (Spec.coolant_partial vf rho_cool) rho_val cool_comp))
          (match matr_given matr ≫= mats with
           | Some matr_comp =>
               scaled (Spec.matrix_partial vf matrixDensity split) rho_val
                 matr_comp
           | None => nil
           end)).
Proof.
  rewrite (homog_core_result fuel cool matr enrich r_cool rho_cool c self
             fd fuel_density)
    by (intros m Hm; apply (matrix_known m Hm)).
  rewrite fuel_enriched. cbn [mbind result_bind Py.bind].
  fold vf matrixDensity. fold split. fold rho_val.
  rewrite !(normed_scaled _ _ _ rho_nonzero).
  cbn [mbind result_bind Py.bind]. rewrite coolant_known.
  cbn [getitem mbind result_bind Py.bind].
  rewrite !(normed_scaled _ _ _ rho_nonzero).
  cbn [mbind result_bind Py.bind].
  destruct (matr_given matr) as [m|] eqn:Em.
  - destruct (matrix_known m eq_refl) as [_ [matr_comp Hm]].
    cbn [mbind option_bind]. rewrite Hm.
    cbn [getitem mbind result_bind Py.bind].
    rewrite !(normed_scaled _ _ _ rho_nonzero). reflexivity.
  - reflexivity.
Qed.

End HomogCoreScaled.




(** X10. For a volume fraction and an enrichment in [0,1], a coolant
    density that is not negative and a positive rounded density,
    [homog_core] returns a composition with distinct isotopes whose mass
    fractions are all non-negative. *)
Theorem homog_core_nonnegative (fuel cool : string) (matr : option string)
    (enrich r_cool rho_cool c : Q) (self : HomogeneousInput) (fd : Q) :
  fuel = "UO2" \/ fuel = "UN" ->
  rhos fuel = Some fd ->
  is_Some (mats cool) ->
  (forall m, matr_given matr = Some m ->
             is_Some (rhos m) /\ is_Some (mats m)) ->
  0 <= enrich -> enrich <= 1 ->
  0 <= vfrac_fuel self -> vfrac_fuel self <= 1 ->
  0 <= rho_cool ->
  0 < Spec.smeared_density (vfrac_fuel self) fd rho_cool
        (matr_given matr ≫= rhos) ->
  exists comp,
    snd (homog_core fuel cool matr enrich r_cool rho_cool c self) = Ok comp
    /\ Forall (fun kv => 0 <= snd kv) comp
    /\ NoDup (dict_keys comp).
Proof.
  intros Hfuel Hfd [cool_comp Hcool] Hmatr H0 H1 Hv0 Hv1 Hrc Hrho.
  destruct (enrich_fuel_returns enrich fuel Hfuel H0 H1)
    as (fuel_comp & mm & Hef & _ & _).
  destruct (enrich_fuel_nonneg _ _ _ _ H0 H1 Hef) as [Hfn Hfd'].
  assert (Hnz : ~ Spec.smeared_density (vfrac_fuel self) fd rho_cool
                    (matr_given matr ≫= rhos) == 0)
    by (intros E; rewrite E in Hrho; lra).
  rewrite (homog_core_scaled fuel cool matr enrich r_cool rho_cool c self
             fd fuel_comp cool_comp mm Hfd Hmatr Hef Hcool Hnz).
  eexists. split; [reflexivity |].
  pose proof (rhos_pos fuel fd Hfd) as Hfdpos.
  assert (Hsplit : 0 <= Spec.matrixSplit
                          (Spec.is_present (matr_given matr ≫= rhos))
                   /\ Spec.matrixSplit
                        (Spec.is_present (matr_given matr ≫= rhos)) <= 1).
  { destruct (Spec.is_present _); split; discriminate. }
  destruct Hsplit as [Hs0 Hs1].
  assert (Hfp : 0 <= Spec.fuel_partial (vfrac_fuel self) fd
                       (Spec.matrixSplit
                          (Spec.is_present (matr_given matr ≫= rhos)))).
  { unfold Spec.fuel_partial.
    apply Qmult_le_0_compat; [apply Qmult_le_0_compat |]; lra. }
  assert (Hcp : 0 <= Spec.coolant_partial (vfrac_fuel self) rho_cool).
  { unfold Spec.coolant_partial. apply Qmult_le_0_compat; lra. }
  assert (Hmp : 0 <= Spec.matrix_partial (vfrac_fuel self)
                       (matr_given matr ≫= rhos)
                       (Spec.matrixSplit
                          (Spec.is_present (matr_given matr ≫= rhos)))).
  { unfold Spec.matrix_partial.
    destruct (matr_given matr ≫= rhos) as [md|] eqn:Emd; [| lra].
    assert (0 < md).
    { destruct (matr_given matr) as [m|]; [| discriminate Emd].
      exact (rhos_pos m md Emd). }
    apply Qmult_le_0_compat; [apply Qmult_le_0_compat |]; lra. }
  assert (Hmn : Forall (fun kv => 0 <= snd kv)
                  match matr_given matr ≫= mats with
                  | Some matr_comp =>
                      scaled (Spec.matrix_partial (vfrac_fuel self)
                                (matr_given matr ≫= rhos)
                                (Spec.matrixSplit
                                   (Spec.is_present (matr_given matr ≫= rhos))))
                        (Spec.smeared_density (vfrac_fuel self) fd rho_cool
                           (matr_given matr ≫= rhos)) matr_comp
                  | None => nil
                  end
                /\ NoDup (dict_keys
                  match matr_given matr ≫= mats with
                  | Some matr_comp =>
                      scaled (Spec.matrix_partial (vfrac_fuel self)
                                (matr_given matr ≫= rhos)
                                (Spec.matrixSplit
                                   (Spec.is_present (matr_given matr ≫= rhos))))
                        (Spec.smeared_density (vfrac_fuel self) fd rho_cool
                           (matr_given matr ≫= rhos)) matr_comp
                  | None => nil
                  end)).
  { destruct (matr_given matr ≫= mats) as [matr_comp|] eqn:Em.
    - destruct (matr_given matr) as [m|]; [| discriminate Em].
      split.
      + apply scaled_nonneg; [exact Hmp | exact Hrho |].
        exact (mats_nonneg m matr_comp Em).
      + rewrite dict_keys_scaled. exact (mats_NoDup m matr_comp Em).
    - split; [constructor | apply NoDup_nil; exact I]. }
  destruct Hmn as [Hmn Hmd].
  assert (Hcd : NoDup (dict_keys (scaled
                  (Spec.coolant_partial (vfrac_fuel self) rho_cool)
                  (Spec.smeared_density (vfrac_fuel self) fd rho_cool
                     (matr_given matr ≫= rhos)) cool_comp)))
    by (rewrite dict_keys_scaled; exact (mats_NoDup cool cool_comp Hcool)).
  assert (Hfd2 : NoDup (dict_keys (scaled
                  (Spec.fuel_partial (vfrac_fuel self) fd
                     (Spec.matrixSplit
                        (Spec.is_present (matr_given matr ≫= rhos))))
                  (Spec.smeared_density (vfrac_fuel self) fd rho_cool
                     (matr_given matr ≫= rhos)) fuel_comp)))
    by (rewrite dict_keys_scaled; exact Hfd').
  split.
  - repeat apply merge_comps_nonneg; try exact Hmn; try constructor.
    + apply scaled_nonneg; assumption.
    + apply scaled_nonneg; [exact Hcp | exact Hrho |].
      exact (mats_nonneg cool cool_comp Hcool).
  - apply (proj2 (dict_keys_merge _ _ Hmd)).
    apply (proj2 (dict_keys_merge _ _ Hcd)).
    apply (proj2 (dict_keys_merge _ _ Hfd2)).
    apply NoDup_nil. exact I.
Qed.

Lemma homog_core_nonnegative_witness :
  exists comp,
    snd (homog_core "UO2" "H2O" None 0.93 0.5 0.12348 0.031
           (init 30 30 0.4 15)) = Ok comp
    /\ Forall (fun kv => 0 <= snd kv) comp
    /\ NoDup (dict_keys comp).
Proof.
  refine (homog_core_nonnegative "UO2" "H2O" None 0.93 0.5 0.12348 0.031
            (init 30 30 0.4 15) 10.97 _ _ _ _ _ _ _ _ _ _).
  - left; reflexivity.
  - reflexivity.
  - eexists; reflexivity.
  - intros m Hm; discriminate Hm.
  - discriminate.
  - discriminate.
  - discriminate.
  - discriminate.
  - discriminate.
  - vm_compute. reflexivity.
Defined.



(** ** The material card, in general *)

(** X12. [write_mat_string] never raises, for any composition, and
    assigns only [fuel_string]: the geometry, [rho] and [MM_fuel] are
    kept, and the new card does not depend on the object nor on the card
    it held before. *)
Theorem write_mat_string_total (homog_comp : dict) (self : HomogeneousInput) :
  let out := write_mat_string homog_comp self in
  snd out = Ok tt
  /\ fuel_string (fst out) = card homog_comp
  /\ z (fst out) = z self /\ r (fst out) = r self
  /\ vfrac_fuel (fst out) = vfrac_fuel self /\ t_refl (fst out) = t_refl self
  /\ rho (fst out) = rho self /\ MM_fuel (fst out) = MM_fuel self.
Proof.
  cbv zeta. unfold card. rewrite !write_mat_string_card.
  repeat split.
Qed.

(** X13. The card is a function of the mapping alone: two compositions
    with distinct keys that hold the same entries in different insertion
    orders give the same card. *)
Theorem card_order_independent (d1 d2 : dict) :
  d1 ≡ₚ d2 -> NoDup (dict_keys d1) -> card d1 = card d2.
Proof. apply card_insertion_order. Qed.

Lemma card_order_independent_witness :
  card ((92238%Z, 0.25) :: (1001%Z, 0.25) :: (8016%Z, 0.5) :: nil)
  = card ((1001%Z, 0.25) :: (8016%Z, 0.5) :: (92238%Z, 0.25) :: nil).
Proof.
  apply card_order_independent.
  - change ((92238%Z, 0.25) :: (1001%Z, 0.25) :: (8016%Z, 0.5) :: nil)
      with (((92238%Z, 0.25) :: nil)
            ++ ((1001%Z, 0.25) :: (8016%Z, 0.5) :: nil)).
    change ((1001%Z, 0.25) :: (8016%Z, 0.5) :: (92238%Z, 0.25) :: nil)
      with (((1001%Z, 0.25) :: (8016%Z, 0.5) :: nil)
            ++ ((92238%Z, 0.25) :: nil)).
    apply Permutation_app_comm.
  - cbn. repeat (apply NoDup_cons; split;
                 [rewrite list_elem_of_In; cbn; lia |]).
    apply NoDup_nil; exact I.
Defined.

(** X14. The card is the header line followed by one piece per isotope,
    taken in strictly ascending order of the identifiers, each isotope of
    the composition once; the piece of an isotope is its entry, or
    nothing when its value is zero. *)
Theorem card_ascending (homog_comp : dict) :
  NoDup (dict_keys homog_comp) ->
  exists ks,
    card homog_comp
    = Some (("m1" +:+ newline)
            +:+ concat_pieces
                  (List.map (piece homog_comp (List.length ks))
                     (enumerate ks)))
    /\ ks ≡ₚ dict_keys homog_comp
    /\ StronglySorted Z.lt ks
    /\ (forall idx k, zero_valued homog_comp k = true ->
          piece homog_comp (List.length ks) (idx, k) = "").
Proof.
  intros Hnd. exists (sorted (dict_keys homog_comp)).
  assert (Hp : sorted (dict_keys homog_comp) ≡ₚ dict_keys homog_comp)
    by (unfold sorted; apply merge_sort_Permutation).
  split; [| split; [exact Hp | split]].
  - unfold card. rewrite write_mat_string_card.
    cbn [fst fuel_string set_fuel_string].
    rewrite (Permutation_length Hp). reflexivity.
  - apply sorted_strictly_ascending. exact Hnd.
  - intros idx k. unfold zero_valued, piece.
    destruct (dict_get k homog_comp); [| reflexivity].
    intros ->. reflexivity.
Qed.

Lemma card_ascending_witness :
  exists ks,
    card ((92238%Z, 0.25) :: (1001%Z, 0.75) :: nil)
    = Some (("m1" +:+ newline)
            +:+ concat_pieces
                  (List.map (piece ((92238%Z, 0.25) :: (1001%Z, 0.75) :: nil)
                               (List.length ks))
                     (enumerate ks)))
    /\ ks ≡ₚ (92238 :: 1001 :: nil)%Z
    /\ StronglySorted Z.lt ks.
Proof.
  destruct (card_ascending ((92238%Z, 0.25) :: (1001%Z, 0.75) :: nil))
    as (ks & Hc & Hp & Hs & _).
  - cbn. repeat (apply NoDup_cons; split;
                 [rewrite list_elem_of_In; cbn; lia |]).
    apply NoDup_nil; exact I.
  - exists ks. split; [exact Hc |]. split; [exact Hp | exact Hs].
Defined.

Lemma concat_pieces_app (l1 l2 : list string) :
  concat_pieces (l1 ++ l2) = concat_pieces l1 +:+ concat_pieces l2.
Proof.
  induction l1 as [|s l1 IH]; [reflexivity |].
  cbn [app concat_pieces]. rewrite IH, string_app_assoc. reflexivity.
Qed.

Lemma concat_pieces_zero (homog_comp : dict) (n i : nat) (ks : list Z) :
  Forall (fun k => zero_valued homog_comp k = true) ks ->
  concat_pieces (List.map (piece homog_comp n) (enumerate_from i ks)) = "".
Proof.
  intros H. revert i. induction H as [|k ks Hk _ IH]; intros i.
  - reflexivity.
  - cbn [enumerate_from List.map concat_pieces]. rewrite IH.
    unfold piece. unfold zero_valued in Hk.
    destruct (dict_get k homog_comp); [rewrite Hk |]; reflexivity.
Qed.

(** X15. Whenever the isotopes with the largest identifiers have the
    value zero and an isotope before them does not, the card ends with a
    line break: the entry of that isotope is the last one written, and the
    test on its index still finds isotopes after it. *)
Theorem card_trailing_newline (homog_comp : dict) (before zeros : list Z)
    (k : Z) :
  sorted (dict_keys homog_comp) = before ++ k :: zeros ->
  zero_valued homog_comp k = false ->
  zeros <> nil ->
  Forall (fun k' => zero_valued homog_comp k' = true) zeros ->
  exists text v,
    dict_get k homog_comp = Some v
    /\ card homog_comp = Some ((text +:+ entry_text k v) +:+ newline).
Proof.
  intros Hs Hk Hne Hz.
  unfold zero_valued in Hk.
  destruct (dict_get k homog_comp) as [v|] eqn:Ev; [| discriminate Hk].
  assert (Hlen : List.length (dict_keys homog_comp)
                 = (List.length before + S (List.length zeros))%nat).
  { rewrite <- (Permutation_length
                  (merge_sort_Permutation Z.le (dict_keys homog_comp))).
    fold (sorted (dict_keys homog_comp)). rewrite Hs, List.length_app.
    reflexivity. }
  exists (("m1" +:+ newline)
          +:+ concat_pieces
                (List.map (piece homog_comp
                             (List.length (dict_keys homog_comp)))
                   (enumerate before))), v.
  split; [reflexivity |].
  unfold card. rewrite write_mat_string_card.
  cbn [fst fuel_string set_fuel_string]. f_equal.
  rewrite Hs. unfold enumerate. rewrite enumerate_from_app.
  cbn [enumerate_from]. rewrite List.map_app, concat_pieces_app.
  cbn [List.map concat_pieces].
  rewrite (concat_pieces_zero _ _ _ _ Hz), string_app_nil_r.
  unfold piece at 2. rewrite Ev, Hk.
  assert (Hidx : (Z.of_nat (0 + List.length before)
                  <? Z.of_nat (List.length (dict_keys homog_comp)) - 1)%Z
                 = true).
  { apply Z.ltb_lt. rewrite Hlen.
    destruct zeros; [contradiction | simpl List.length; lia]. }
  rewrite Hidx. rewrite !string_app_assoc. reflexivity.
Qed.

Lemma card_trailing_newline_witness :
  exists text v,
    dict_get 8016 ((92235%Z, 0) :: (8016%Z, 0.75) :: (92238%Z, 0)
                   :: (6000%Z, 0.25) :: nil) = Some v
    /\ card ((92235%Z, 0) :: (8016%Z, 0.75) :: (92238%Z, 0)
             :: (6000%Z, 0.25) :: nil)
       = Some ((text +:+ entry_text 8016 v) +:+ newline).
Proof.
  apply (card_trailing_newline
           ((92235%Z, 0) :: (8016%Z, 0.75) :: (92238%Z, 0)
            :: (6000%Z, 0.25) :: nil)
           (6000 :: nil)%Z (92235 :: 92238 :: nil)%Z 8016).
  - vm_compute. reflexivity.
  - reflexivity.
  - discriminate.
  - repeat constructor.
Defined.

(** X16. A composition without a value other than zero, the empty
    composition among them, gives the header line alone. *)
Theorem card_all_zero (homog_comp : dict) :
  Forall (fun kv => Qeq_bool (Qabs (snd kv)) 0 = true) homog_comp ->
  card homog_comp = Some ("m1" +:+ newline).
Proof.
  intros H. unfold card. rewrite write_mat_string_card.
  cbn [fst fuel_string set_fuel_string]. f_equal.
  unfold enumerate. rewrite concat_pieces_zero.
  - apply string_app_nil_r.
  - apply Forall_forall. intros k _. unfold zero_valued.
    clear -H. induction H as [|[k' v'] d Hv _ IH]; simpl; [reflexivity |].
    destruct (Z.eqb k k'); [exact Hv | exact IH].
Qed.

Lemma card_all_zero_witness :
  card nil = Some ("m1" +:+ newline)
  /\ card ((8016%Z, 0) :: (92238%Z, 0) :: nil) = Some ("m1" +:+ newline).
Proof.
  split.
  - apply card_all_zero. constructor.
  - apply card_all_zero. repeat constructor.
Defined.

(** ** Writing the deck *)


Section Deck.

Context `{External}.

(** X17. [write_input] writes at most the file it is asked to write:
    when it raises, the file system is as it was; when it returns, the
    file [name] holds the rendered template, replacing what it held, and
    every other file is unchanged. *)
Theorem write_input_effects (self : HomogeneousInput) (name header : string)
    (fs : fsys) :
  let out := write_input self name header fs in
  (forall e, snd out = Raise e -> fst out = fs)
  /\ (snd out = Ok tt ->
      exists text card_text density,
        fs !! "base_input.txt" = Some text
        /\ fuel_string self = Some card_text
        /\ rho self = Some density
        /\ substitute text
             (deck_slots header (r self) (z self) (t_refl self)
                card_text density)
           = Ok (default "" (fst out !! name))
        /\ is_Some (fst out !! name))
  /\ (forall x, x <> name -> fst out !! x = fs !! x).
Proof.
  cbv zeta. unfold write_input, read_file, write_file. unfold_state.
  destruct (fs !! "base_input.txt") as [text|] eqn:Et.
  2:{ cbn [fst snd]. repeat split; try reflexivity; discriminate. }
  destruct (fuel_string self) as [card_text|] eqn:Ec.
  2:{ cbn. repeat split; try reflexivity; discriminate. }
  destruct (rho self) as [density|] eqn:Er.
  2:{ cbn. repeat split; try reflexivity; discriminate. }
  cbn [getattr mbind result_bind Py.bind].
  fold (deck_slots header (r self) (z self) (t_refl self) card_text density).
  destruct (substitute text _) as [file_string|e] eqn:Es.
  - cbn [fst snd]. split; [discriminate |]. split.
    + intros _. exists text, card_text, density.
      rewrite lookup_insert_eq. cbn [default].
      repeat split; try reflexivity; try assumption.
      eexists; reflexivity.
    + intros x Hx. apply lookup_insert_ne. congruence.
  - cbn [fst snd]. repeat split; try reflexivity; discriminate.
Qed.

(** X18. [write_input] needs the template and an object on which
    [homog_core] and [write_mat_string] were called: without the file
    [base_input.txt] it raises [FileNotFoundError], whatever the object,
    and with it [AttributeError] when [fuel_string] or [rho] was never
    assigned. Nothing is written in either case. *)
Theorem write_input_errors (self : HomogeneousInput) (name header : string)
    (fs : fsys) :
  (fs !! "base_input.txt" = None ->
   write_input self name header fs = (fs, Raise FileNotFoundError))
  /\ (is_Some (fs !! "base_input.txt") ->
      fuel_string self = None \/ rho self = None ->
      write_input self name header fs = (fs, Raise AttributeError)).
Proof.
  unfold write_input, read_file, write_file. unfold_state. split.
  - intros ->. reflexivity.
  - intros [text ->] Hattr.
    destruct (fuel_string self) as [card_text|]; [| reflexivity].
    destruct Hattr as [Hc | Hr]; [discriminate Hc |].
    rewrite Hr. reflexivity.
Qed.

Lemma write_inp_unfold (frac core_r : Q) (basename coolant fuel : string)
    (matr : option string) (cool_rho : Q) (fs : fsys) :
  write_inp frac core_r basename coolant fuel matr cool_rho fs
  = match homog_core fuel coolant matr 0.93 0.5 cool_rho default_c
            (init core_r (core_r * 1) frac default_refl_t) with
    | (input1, Ok homog_comp) =>
        match write_mat_string homog_comp input1 with
        | (input2, Ok _) => write_input input2 basename default_header fs
        | (_, Raise e) => (fs, Raise e)
        end
    | (_, Raise e) => (fs, Raise e)
    end.
Proof.
  unfold write_inp, call_method. unfold_state.
  destruct (homog_core _ _ _ _ _ _ _ _) as [input1 [homog_comp|e]];
    [| reflexivity].
  destruct (write_mat_string homog_comp input1) as [input2 [[]|e]];
    reflexivity.
Qed.


End Deck.

Lemma write_input_effects_witness :
  fst (@write_input Instances.converged
         (set_fuel_string "m1" (set_rho 1 (init 30 30 0.5 15)))
         "deck.i" default_header Instances.workdir) !! "base_input.txt"
  = Instances.workdir !! "base_input.txt".
Proof.
  apply (proj2 (proj2 (@write_input_effects Instances.converged
                         (set_fuel_string "m1" (set_rho 1 (init 30 30 0.5 15)))
                         "deck.i" default_header Instances.workdir))).
  discriminate.
Defined.

Lemma write_input_errors_witness :
  @write_input Instances.converged (init 30 30 0.5 15) "deck.i"
    default_header ∅
  = (∅, Raise FileNotFoundError)
  /\ @write_input Instances.converged (init 30 30 0.5 15) "deck.i"
       default_header Instances.workdir
     = (Instances.workdir, Raise AttributeError).
Proof.
  split.
  - apply (proj1 (@write_input_errors Instances.converged
                    (init 30 30 0.5 15) "deck.i" default_header ∅)).
    reflexivity.
  - apply (proj2 (@write_input_errors Instances.converged
                    (init 30 30 0.5 15) "deck.i" default_header
                    Instances.workdir)).
    + eexists. vm_compute. reflexivity.
    + left. reflexivity.
Defined.


(** ** One evaluation of the objective function *)

Section Evaluation.

Context `{External}.

Lemma write_inp_raises (frac core_r : Q) (basename coolant fuel : string)
    (matr : option string) (cool_rho : Q) (fs fs1 : fsys) (e : exn) :
  write_inp frac core_r basename coolant fuel matr cool_rho fs
  = (fs1, Raise e) ->
  fs1 = fs.
Proof.
  rewrite write_inp_unfold.
  destruct (homog_core _ _ _ _ _ _ _ _) as [input1 [homog_comp|e1]].
  2:{ intros E. injection E as <- _. reflexivity. }
  destruct (write_mat_string homog_comp input1) as [input2 [[]|e2]].
  2:{ intros E. injection E as <- _. reflexivity. }
  unfold write_input, read_file, write_file. unfold_state.
  destruct (fs !! "base_input.txt"); [| intros E; injection E as <- _; reflexivity].
  destruct (getattr (fuel_string input2)); cbn [mbind result_bind Py.bind];
    [| intros E; injection E as <- _; reflexivity].
  destruct (getattr (rho input2)); cbn [mbind result_bind Py.bind];
    [| intros E; injection E as <- _; reflexivity].
  destruct (substitute _ _); intros E; [discriminate E |].
  injection E as <- _. reflexivity.
Qed.

(** The evaluation once the deck is written. *)
Lemma calc_keff_error_after_deck (radius frac : Q) (coolant fuel : string)
    (matr : option string) (cool_rho : Q) (fs fs1 : fsys) :
  let basename := basename_of frac radius in
  write_inp frac radius basename coolant fuel matr cool_rho fs
  = (fs1, Ok tt) ->
  calc_keff_error radius frac coolant fuel matr cool_rho fs
  = st_bind (parse_output basename) (fun keff =>
    st_bind (os_remove (basename +:+ "r")) (fun _ =>
    st_bind (os_remove (basename +:+ "s")) (fun _ =>
    st_bind (os_remove (basename +:+ "o")) (fun _ =>
    st_bind (os_remove basename) (fun _ =>
    st_ret (Qabs (keff - 1.0)))))))
      (mcnp6 ("n= " +:+ basename +:+ " tasks 8") fs1).
Proof.
  intros basename Hw. unfold calc_keff_error. fold basename.
  unfold mbind, stateE_bind. unfold st_bind at 1. rewrite Hw.
  unfold st_bind at 1. unfold call_mcnp6, st_modify. reflexivity.
Qed.

(** X20. When the deck cannot be written (an unknown material, a zero
    density, a missing or unusable template), the evaluation raises the
    exception of [write_inp], the file system is untouched and the solver
    is not run. *)
Theorem calc_keff_error_no_deck (radius frac : Q) (coolant fuel : string)
    (matr : option string) (cool_rho : Q) (fs fs1 : fsys) (e : exn) :
  write_inp frac radius (basename_of frac radius) coolant fuel matr cool_rho fs
  = (fs1, Raise e) ->
  fs1 = fs
  /\ calc_keff_error radius frac coolant fuel matr cool_rho fs
     = (fs, Raise e).
Proof.
  intros Hw. pose proof (write_inp_raises _ _ _ _ _ _ _ _ _ _ Hw) as ->.
  split; [reflexivity |].
  unfold calc_keff_error. unfold mbind, stateE_bind. unfold st_bind at 1.
  rewrite Hw. reflexivity.
Qed.

(** X21. When the solver leaves no output file, the evaluation raises
    [FileNotFoundError] at the first read and removes nothing: the deck
    and whatever the solver wrote stay. *)
Theorem calc_keff_error_missing_output (radius frac : Q)
    (coolant fuel : string) (matr : option string) (cool_rho : Q)
    (fs fs1 : fsys) :
  let basename := basename_of frac radius in
  let fs2 := mcnp6 ("n= " +:+ basename +:+ " tasks 8") fs1 in
  write_inp frac radius basename coolant fuel matr cool_rho fs
  = (fs1, Ok tt) ->
  fs2 !! (basename +:+ "o") = None ->
  calc_keff_error radius frac coolant fuel matr cool_rho fs
  = (fs2, Raise FileNotFoundError).
Proof.
  intros basename fs2 Hw Ho.
  rewrite (calc_keff_error_after_deck _ _ _ _ _ _ _ _ Hw).
  fold basename. fold fs2.
  unfold st_bind at 1. unfold parse_output, read_file. unfold_state.
  rewrite Ho. reflexivity.
Qed.

(** X22. The four removals are not guarded. With a result extracted, a
    missing [r] file stops the evaluation with [FileNotFoundError] before
    anything is removed; a missing [s] file stops it after the [r] file
    alone is removed; a missing deck stops it after the three solver
    files are removed. No value is returned in any of these cases. *)
Theorem calc_keff_error_missing_artifact (radius frac : Q)
    (coolant fuel : string) (matr : option string) (cool_rho : Q)
    (fs fs1 : fsys) (keff : Q) :
  let basename := basename_of frac radius in
  let fs2 := mcnp6 ("n= " +:+ basename +:+ " tasks 8") fs1 in
  write_inp frac radius basename coolant fuel matr cool_rho fs
  = (fs1, Ok tt) ->
  snd (parse_output basename fs2) = Ok keff ->
  (fs2 !! (basename +:+ "r") = None ->
   calc_keff_error radius frac coolant fuel matr cool_rho fs
   = (fs2, Raise FileNotFoundError))
  /\ (is_Some (fs2 !! (basename +:+ "r")) ->
      fs2 !! (basename +:+ "s") = None ->
      calc_keff_error radius frac coolant fuel matr cool_rho fs
      = (delete (basename +:+ "r") fs2, Raise FileNotFoundError))
  /\ (is_Some (fs2 !! (basename +:+ "r")) ->
      is_Some (fs2 !! (basename +:+ "s")) ->
      fs2 !! basename = None ->
      calc_keff_error radius frac coolant fuel matr cool_rho fs
      = (delete (basename +:+ "o")
           (delete (basename +:+ "s") (delete (basename +:+ "r") fs2)),
         Raise FileNotFoundError)).
Proof.
  intros basename fs2 Hw Hp.
  rewrite (calc_keff_error_after_deck _ _ _ _ _ _ _ _ Hw).
  fold basename. fold fs2.
  pose proof (parse_output_reads basename fs2) as Hread.
  assert (Ho : is_Some (fs2 !! (basename +:+ "o"))).
  { revert Hp. unfold parse_output, read_file. unfold_state.
    destruct (fs2 !! (basename +:+ "o")); [eexists; reflexivity |].
    discriminate. }
  destruct Ho as [to Hto].
  assert (Hchain : forall k : Q -> stateE fsys Q,
            st_bind (parse_output basename) k fs2 = k keff fs2).
  { intros k. unfold st_bind.
    destruct (parse_output basename fs2) as [fs3 [k0|e]];
      cbn [fst snd] in Hp, Hread; [| discriminate Hp].
    injection Hp as ->. subst fs3. reflexivity. }
  rewrite Hchain. clear Hchain Hp Hread.
  assert (Hr : basename +:+ "r" <> basename)
    by (apply append_suffix_ne; discriminate).
  assert (Hs : basename +:+ "s" <> basename)
    by (apply append_suffix_ne; discriminate).
  assert (Hob : basename +:+ "o" <> basename)
    by (apply append_suffix_ne; discriminate).
  assert (Hrs : basename +:+ "r" <> basename +:+ "s")
    by (intros E; apply append_inj_r in E; discriminate).
  assert (Hro : basename +:+ "r" <> basename +:+ "o")
    by (intros E; apply append_inj_r in E; discriminate).
  assert (Hso : basename +:+ "s" <> basename +:+ "o")
    by (intros E; apply append_inj_r in E; discriminate).
  split; [| split].
  - intros Hnr. unfold st_bind at 1. unfold os_remove at 1.
    rewrite Hnr. reflexivity.
  - intros [tr Htr] Hns. unfold st_bind at 1.
    rewrite (os_remove_present _ tr) by exact Htr.
    unfold st_bind at 1. unfold os_remove at 1.
    rewrite lookup_delete_ne by exact Hrs. rewrite Hns. reflexivity.
  - intros [tr Htr] [ts Hts] Hnb. unfold st_bind at 1.
    rewrite (os_remove_present _ tr) by exact Htr.
    unfold st_bind at 1.
    rewrite (os_remove_present _ ts)
      by (rewrite lookup_delete_ne by exact Hrs; exact Hts).
    unfold st_bind at 1.
    rewrite (os_remove_present _ to)
      by (rewrite !lookup_delete_ne by congruence; exact Hto).
    unfold st_bind at 1. unfold os_remove at 1.
    rewrite !lookup_delete_ne by congruence. rewrite Hnb. reflexivity.
Qed.

(** X23. An evaluation that returns has written and removed only its own
    four files: every other file, the template among them, is as the
    solver left it, and the value returned is [|keff - 1|] for the value
    extracted from the output. *)
Theorem calc_keff_error_other_files (radius frac : Q) (coolant fuel : string)
    (matr : option string) (cool_rho : Q) (fs fs1 fs' : fsys) (err : Q) :
  let basename := basename_of frac radius in
  let fs2 := mcnp6 ("n= " +:+ basename +:+ " tasks 8") fs1 in
  write_inp frac radius basename coolant fuel matr cool_rho fs
  = (fs1, Ok tt) ->
  calc_keff_error radius frac coolant fuel matr cool_rho fs = (fs', Ok err) ->
  (forall x, x <> basename -> x <> basename +:+ "r" ->
             x <> basename +:+ "s" -> x <> basename +:+ "o" ->
             fs' !! x = fs2 !! x)
  /\ (forall x, x <> basename -> fs1 !! x = fs !! x)
  /\ exists keff, snd (parse_output basename fs2) = Ok keff
                  /\ err = Qabs (keff - 1.0).
Proof.
  intros basename fs2 Hw.
  rewrite (calc_keff_error_after_deck _ _ _ _ _ _ _ _ Hw).
  fold basename. fold fs2.
  pose proof (parse_output_reads basename fs2) as Hread.
  unfold st_bind at 1.
  destruct (parse_output basename fs2) as [fs3 [keff|e]];
    cbn [fst snd] in Hread |- *; [| discriminate].
  subst fs3. unfold st_bind.
  destruct (os_remove (basename +:+ "r") fs2) as [fs4 [[]|e]] eqn:E4;
    [| discriminate].
  destruct (os_remove (basename +:+ "s") fs4) as [fs5 [[]|e]] eqn:E5;
    [| discriminate].
  destruct (os_remove (basename +:+ "o") fs5) as [fs6 [[]|e]] eqn:E6;
    [| discriminate].
  destruct (os_remove basename fs6) as [fs7 [[]|e]] eqn:E7;
    [| discriminate].
  unfold st_ret. intros E. injection E as <- <-.
  apply os_remove_ok in E4, E5, E6, E7. subst.
  split; [| split].
  - intros x Hb Hr Hs Ho. rewrite !lookup_delete_ne by congruence.
    reflexivity.
  - intros x Hx. revert Hw. rewrite write_inp_unfold.
    destruct (homog_core _ _ _ _ _ _ _ _) as [input1 [homog_comp|e1]];
      [| discriminate].
    destruct (write_mat_string homog_comp input1) as [input2 [[]|e2]];
      [| discriminate].
    unfold write_input, read_file, write_file. unfold_state.
    destruct (fs !! "base_input.txt"); [| discriminate].
    destruct (getattr (fuel_string input2)); cbn [mbind result_bind Py.bind];
      [| discriminate].
    destruct (getattr (rho input2)); cbn [mbind result_bind Py.bind];
      [| discriminate].
    destruct (substitute _ _); [| discriminate].
    intros E. injection E as <-. apply lookup_insert_ne. congruence.
  - exists keff. split; reflexivity.
Qed.

(** X24. [parse_output] on its two failures that are not the missing
    marker: without the output file it raises [FileNotFoundError]; when
    the last line with the marker has fewer than three tokens it raises
    [IndexError], whatever the earlier result lines hold. It never
    changes a file. *)
Theorem parse_output_errors (basename : string) (fs : fsys) :
  fst (parse_output basename fs) = fs
  /\ (fs !! (basename +:+ "o") = None ->
      snd (parse_output basename fs) = Raise FileNotFoundError)
  /\ (forall text before line after,
        fs !! (basename +:+ "o") = Some text ->
        readlines text = before ++ line :: after ->
        contains "final result" line = true ->
        Forall (fun l => contains "final result" l = false) after ->
        (List.length (split line) < 3)%nat ->
        snd (parse_output basename fs) = Raise IndexError).
Proof.
  split; [apply parse_output_reads |]. split.
  - intros Hn. unfold parse_output, read_file. unfold_state. rewrite Hn.
    reflexivity.
  - intros text before line after Hf Hl Hm Ha Hlen.
    unfold parse_output, read_file. unfold_state. rewrite Hf, Hl.
    destruct (res_idx_last before after line Hm Ha) as [earlier ->].
    cbn [snd]. rewrite index_last. cbn [mbind result_bind Py.bind].
    rewrite index_middle. cbn [mbind result_bind Py.bind].
    unfold index. cbn [Z.ltb Z.compare].
    change (Z.to_nat 2) with 2%nat.
    destruct (List.nth_error (split line) 2) eqn:En; [| reflexivity].
    exfalso.
    assert (Hlt : (2 < List.length (split line))%nat)
      by (apply List.nth_error_Some; rewrite En; discriminate).
    lia.
Qed.

End Evaluation.

Lemma calc_keff_error_no_deck_witness :
  @calc_keff_error Instances.converged 30 0.5 "CO2" "Pu" None 0.23389
    Instances.workdir
  = (Instances.workdir, Raise KeyError).
Proof.
  assert (Hw : @write_inp Instances.converged 0.5 30
                 (@basename_of Instances.converged 0.5 30) "CO2" "Pu" None
                 0.23389 Instances.workdir
               = (Instances.workdir, Raise KeyError))
    by (vm_compute; reflexivity).
  exact (proj2 (@calc_keff_error_no_deck Instances.converged 30 0.5 "CO2"
                  "Pu" None 0.23389 Instances.workdir Instances.workdir
                  KeyError Hw)).
Defined.

Lemma calc_keff_error_missing_output_witness :
  let basename := @basename_of MoreInstances.idle 0.5 30 in
  let fs1 :=
    fst (@write_inp MoreInstances.idle 0.5 30 basename "CO2" "UO2" None
           0.23389 Instances.workdir) in
  let fs2 :=
    @mcnp6 MoreInstances.idle ("n= " +:+ basename +:+ " tasks 8") fs1 in
  @calc_keff_error MoreInstances.idle 30 0.5 "CO2" "UO2" None 0.23389
    Instances.workdir
  = (fs2, Raise FileNotFoundError).
Proof.
  intros basename fs1 fs2.
  assert (Hw : @write_inp MoreInstances.idle 0.5 30 basename "CO2" "UO2" None
                 0.23389 Instances.workdir = (fs1, Ok tt))
    by (vm_compute; reflexivity).
  assert (Ho : fs2 !! (basename +:+ "o") = None)
    by (vm_compute; reflexivity).
  exact (@calc_keff_error_missing_output MoreInstances.idle 30 0.5 "CO2"
           "UO2" None 0.23389 Instances.workdir fs1 Hw Ho).
Defined.

Lemma calc_keff_error_missing_artifact_witness :
  let basename := @basename_of MoreInstances.no_runtpe 0.5 30 in
  let fs1 :=
    fst (@write_inp MoreInstances.no_runtpe 0.5 30 basename "CO2" "UO2" None
           0.23389 Instances.workdir) in
  let fs2 :=
    @mcnp6 MoreInstances.no_runtpe ("n= " +:+ basename +:+ " tasks 8") fs1 in
  @calc_keff_error MoreInstances.no_runtpe 30 0.5 "CO2" "UO2" None 0.23389
    Instances.workdir
  = (fs2, Raise FileNotFoundError).
Proof.
  intros basename fs1 fs2.
  assert (Hw : @write_inp MoreInstances.no_runtpe 0.5 30 basename "CO2" "UO2"
                 None 0.23389 Instances.workdir = (fs1, Ok tt))
    by (vm_compute; reflexivity).
  assert (Hp : snd (@parse_output MoreInstances.no_runtpe basename fs2)
               = Ok 0.99413)
    by (vm_compute; reflexivity).
  assert (Hr : fs2 !! (basename +:+ "r") = None)
    by (vm_compute; reflexivity).
  exact (proj1 (@calc_keff_error_missing_artifact MoreInstances.no_runtpe
                  30 0.5 "CO2" "UO2" None 0.23389 Instances.workdir fs1
                  0.99413 Hw Hp) Hr).
Defined.

Lemma calc_keff_error_other_files_witness :
  let basename := @basename_of Instances.converged 0.5 30 in
  let fs1 :=
    fst (@write_inp Instances.converged 0.5 30 basename "CO2" "UO2" None
           0.23389 Instances.workdir) in
  let fs2 :=
    @mcnp6 Instances.converged ("n= " +:+ basename +:+ " tasks 8") fs1 in
  let fs' :=
    fst (@calc_keff_error Instances.converged 30 0.5 "CO2" "UO2" None
           0.23389 Instances.workdir) in
  fs' !! "base_input.txt" = fs2 !! "base_input.txt".
Proof.
  intros basename fs1 fs2 fs'.
  assert (Hw : @write_inp Instances.converged 0.5 30 basename "CO2" "UO2"
                 None 0.23389 Instances.workdir = (fs1, Ok tt))
    by (vm_compute; reflexivity).
  assert (Hc : @calc_keff_error Instances.converged 30 0.5 "CO2" "UO2" None
                 0.23389 Instances.workdir = (fs', Ok 0.005870))
    by (vm_compute; reflexivity).
  apply (proj1 (@calc_keff_error_other_files Instances.converged 30 0.5
                  "CO2" "UO2" None 0.23389 Instances.workdir fs1 fs'
                  0.005870 Hw Hc));
    intros E; vm_compute in E; discriminate E.
Defined.

Lemma parse_output_errors_witness :
  snd (@parse_output Instances.converged "deck.i" ∅) = Raise FileNotFoundError
  /\ snd (@parse_output Instances.converged "deck.i"
            {[ "deck.io" :=
                 "     final result     0.98731   0.00077" +:+ newline
                 +:+ " final result" +:+ newline ]})
     = Raise IndexError.
Proof.
  split.
  - apply (proj1 (proj2 (@parse_output_errors Instances.converged
                           "deck.i" ∅))).
    reflexivity.
  - apply (proj2 (proj2 (@parse_output_errors Instances.converged "deck.i"
                           {[ "deck.io" :=
                                "     final result     0.98731   0.00077"
                                +:+ newline
                                +:+ " final result" +:+ newline ]}))
             ("     final result     0.98731   0.00077" +:+ newline
              +:+ " final result" +:+ newline)
             (("     final result     0.98731   0.00077" +:+ newline)
              :: nil)
             (" final result" +:+ newline) nil).
    + vm_compute. reflexivity.
    + vm_compute. reflexivity.
    + vm_compute. reflexivity.
    + constructor.
    + vm_compute. lia.
Defined.
